(** * SAM debugging of Node/TypeScript Lambdas and the SAM integration scenarios

    A shallow embedding of
    - [src/shared/sam/debugger/typescriptSamDebug.ts]: [getSamProjectDirPathForFile],
      [makeTypescriptConfig], [hasTypeScriptFilesRecursive], [compileTypeScript];
    - the SAM integration test file: the [scenarios] table,
      [validateSamDebugSession] and the two [target=...] test cases.

    Paths, messages and commands are strings, as in the source.  What the
    source reaches through imports ([path], [fs-extra], [vscode.Uri],
    [pathutil.normalize], [makeInputTemplate], [isImageLambdaConfig],
    [ChildProcess]) is the interface [Host]; [findParentProjectFile], which
    is not among the sources, is modelled on top of it.  Calls with an effect
    on the outside world are recorded in a trace of [Event]s. *)

From Stdlib Require Import String Ascii List ZArith Bool Arith Lia DecimalString.
From Stdlib Require Import DecimalZ DecimalPos Permutation.
Import ListNotations.
Local Open Scope list_scope.
Local Open Scope string_scope.

(* ================================================================== *)
(** ** JavaScript values, errors and strings *)

Module Js.

(** The values a property typed [any] can hold. Objects are compared by
    reference, hence the address. *)
Inductive value : Type :=
| VUndefined
| VNull
| VBool (b : bool)
| VNumber (z : Z)
| VNaN
| VString (s : string)
| VObject (address : nat).

(** [ToBoolean], as applied by [!!v], [!v] and [v ? a : b]. *)
Definition ToBoolean (v : value) : bool :=
  match v with
  | VUndefined | VNull | VNaN => false
  | VBool b => b
  | VNumber z => negb (Z.eqb z 0)
  | VString s => negb (String.eqb s EmptyString)
  | VObject _ => true
  end.

(** [a === b]. *)
Definition strict_equal (a b : value) : bool :=
  match a, b with
  | VUndefined, VUndefined => true
  | VNull, VNull => true
  | VBool x, VBool y => Bool.eqb x y
  | VNumber x, VNumber y => Z.eqb x y
  | VString x, VString y => String.eqb x y
  | VObject x, VObject y => Nat.eqb x y
  | _, _ => false
  end.

(** Truthiness of a [string | undefined] property. *)
Definition truthy (s : option string) : bool :=
  match s with
  | Some s => negb (String.eqb s EmptyString)
  | None => false
  end.

(** An exception value: [name] is the constructor's name. *)
Record Error : Type := mkError { error_name : string; message : string }.

(** [`${error}`], that is [Error.prototype.toString]: the name alone when
    the message is empty, the message alone when the name is. *)
Definition Error_toString (e : Error) : string :=
  if String.eqb (error_name e) EmptyString then message e
  else if String.eqb (message e) EmptyString then error_name e
  else error_name e ++ ": " ++ message e.

(** [String.prototype.substr(start)] with one argument: a negative [start]
    counts from the end, and is clamped to the start of the string. *)
Definition substr (s : string) (start : Z) : string :=
  let len := Z.of_nat (String.length s) in
  let from := if (start <? 0)%Z then Z.max (len + start) 0 else Z.min start len in
  substring (Z.to_nat from) (Z.to_nat (len - from)) s.

(** [String.prototype.startsWith] *)
Definition startsWith (s pre : string) : bool := String.prefix pre s.

(** [Array.prototype.includes] on an array of strings. *)
Definition includes (l : list string) (x : string) : bool :=
  existsb (String.eqb x) l.

(** [Array.prototype.join] *)
Definition join (l : list string) (sep : string) : string := String.concat sep l.

(** [Number.isSafeInteger(z)]: the integers a number holds exactly. *)
Definition safe_integer (z : Z) : Prop :=
  (- 9007199254740991 <= z <= 9007199254740991)%Z.

(** [`${n}`] for a safe integer: its decimal digits.  (A number prints with
    an exponent from 1e21 on; statements that fix the text bound the number.) *)
Definition Number_toString (z : Z) : string := NilZero.string_of_int (Z.to_int z).

(** JSON documents, and [JSON.stringify] without indentation. *)
#[warnings="-register-all"]
Inductive json : Type :=
| JsonString (s : string)
| JsonBool (b : bool)
| JsonArray (items : list json)
| JsonObject (members : list (string * json)).

Definition quote_char : ascii := ascii_of_nat 34.
Definition backslash_char : ascii := ascii_of_nat 92.

Fixpoint escape (s : string) : string :=
  match s with
  | EmptyString => EmptyString
  | String c rest =>
      if Ascii.eqb c quote_char || Ascii.eqb c backslash_char
      then String backslash_char (String c (escape rest))
      else String c (escape rest)
  end.

Definition quoted (s : string) : string :=
  String quote_char (escape s ++ String quote_char EmptyString).

Fixpoint stringify (j : json) : string :=
  match j with
  | JsonString s => quoted s
  | JsonBool true => "true"
  | JsonBool false => "false"
  | JsonArray items =>
      "[" ++ String.concat "," (map stringify items) ++ "]"
  | JsonObject members =>
      "{" ++ String.concat ","
               (map (fun kv => quoted (fst kv) ++ ":" ++ stringify (snd kv)) members)
          ++ "}"
  end.

End Js.

(* ================================================================== *)
(** ** Outcomes, the outside world, and the effect monad *)

(** What a call into the host returns: a value or an exception. *)
Inductive result (A : Type) : Type :=
| Ok (a : A)
| Failed (e : Js.Error).
Arguments Ok {A} a.
Arguments Failed {A} e.

(** How a modelled function ends. [OutOfFuel] belongs to the model only: the
    directory walk recurses on the file system, so it carries a step bound. *)
Inductive outcome (A : Type) : Type :=
| Return (a : A)
| Throw (e : Js.Error)
| OutOfFuel.
Arguments Return {A} a.
Arguments Throw {A} e.
Arguments OutOfFuel {A}.

Inductive LogLevel : Type := LogInfo | LogWarn | LogError.

(** The calls with an effect outside the program, in the order made. *)
Inductive Event : Type :=
| Logged (channel : option string) (level : LogLevel) (text : string)
| WriteFile (path content : string)
| RunProcess (command : string)
| MakeInputTemplate (templatePath : string).

(** [vscode.Uri], as far as the source reads it. *)
Record Uri : Type := mkUri { fsPath : string }.

(** [RuntimeFamily] of [lambda/models/samLambdaRuntime]; the source names
    [NodeJS] only. *)
Inductive RuntimeFamily : Type :=
| NodeJS
| OtherRuntimeFamily (tag : nat).

(** The mutable object a function works on, and the trace so far. *)
Record World (C : Type) : Type := mkWorld { object : C; trace : list Event }.
Arguments mkWorld {C} object trace.
Arguments object {C} w.
Arguments trace {C} w.

Definition M (C A : Type) : Type := World C -> outcome A * World C.

Definition ret {C A} (a : A) : M C A := fun w => (Return a, w).

Definition bind {C A B} (m : M C A) (k : A -> M C B) : M C B :=
  fun w =>
    match m w with
    | (Return a, w') => k a w'
    | (Throw e, w') => (Throw e, w')
    | (OutOfFuel, w') => (OutOfFuel, w')
    end.

Definition throw {C A} (e : Js.Error) : M C A := fun w => (Throw e, w).

Definition read {C} : M C C := fun w => (Return (object w), w).

Definition assign {C} (f : C -> C) : M C unit :=
  fun w => (Return tt, mkWorld (f (object w)) (trace w)).

Definition emit {C} (e : Event) : M C unit :=
  fun w => (Return tt, mkWorld (object w) (trace w ++ [e])%list).

(** An [await]ed or synchronous host call: its exception is rethrown. *)
Definition call {C A} (r : result A) : M C A :=
  fun w => match r with Ok a => (Return a, w) | Failed e => (Throw e, w) end.

Definition lift {C A} (o : outcome A) : M C A := fun w => (o, w).

(** [try { body } catch (error) { handler error }] *)
Definition try_catch {C A} (body : M C A) (handler : Js.Error -> M C A) : M C A :=
  fun w =>
    match body w with
    | (Throw e, w') => handler e w'
    | other => other
    end.

Declare Scope effect_scope.
Delimit Scope effect_scope with effect.
Notation "x <- m ;; k" := (bind m (fun x => k))
  (at level 61, m at next level, right associativity) : effect_scope.
Notation "m ;; k" := (bind m (fun _ => k))
  (at level 61, right associativity) : effect_scope.

(** [throw Error(text)] *)
Definition throw_Error {C A} (text : string) : M C A :=
  throw (Js.mkError "Error" text).

(* ================================================================== *)
(** ** typescriptSamDebug.ts *)

Module TypescriptSamDebug.

Import Js.

(** One entry of [lambda.pathMappings]. *)
Record PathMapping : Type := mkPathMapping { pm_localRoot : string; pm_remoteRoot : string }.

Record LambdaProperties : Type := mkLambda {
  lambda_runtime : option string;
  pathMappings : option (list PathMapping)
}.

Record InvokeTarget : Type := mkInvokeTarget { target : string }.

(** [SamLaunchRequestArgs]: the properties the source reads or writes.  An
    optional property is an [option]; [stopOnEntry] is untyped in the source
    (it is coerced with [!!]). *)
Record SamLaunchRequestArgs : Type := mkArgs {
  type_ : string;
  name : string;
  request : string;
  invokeTarget : InvokeTarget;
  lambda : option LambdaProperties;
  runtimeFamily : option RuntimeFamily;
  preLaunchTask : option string;
  baseBuildDir : option string;
  codeRoot : option string;
  templatePath : option string;
  documentUri : option Uri;
  noDebug : option bool;
  debugPort : option Z;
  stopOnEntry : value;
  containerEnvVars : option (list (string * string))
}.

(** [NodejsDebugConfiguration extends SamLaunchRequestArgs]. *)
Record NodejsDebugConfiguration : Type := mkNodejs {
  launchArgs :> SamLaunchRequestArgs;
  address : string;
  port : Z;
  localRoot : option string;
  remoteRoot : string;
  protocol : string;
  skipFiles : list string
}.

(** [config.codeRoot = v] *)
Definition set_codeRoot (v : string) (c : SamLaunchRequestArgs) : SamLaunchRequestArgs :=
  mkArgs (type_ c) (name c) (request c) (invokeTarget c) (lambda c) (runtimeFamily c)
         (preLaunchTask c) (baseBuildDir c) (Some v) (templatePath c) (documentUri c)
         (noDebug c) (debugPort c) (stopOnEntry c) (containerEnvVars c).

(** [config.templatePath = v] *)
Definition set_templatePath (v : string) (c : SamLaunchRequestArgs) : SamLaunchRequestArgs :=
  mkArgs (type_ c) (name c) (request c) (invokeTarget c) (lambda c) (runtimeFamily c)
         (preLaunchTask c) (baseBuildDir c) (codeRoot c) (Some v) (documentUri c)
         (noDebug c) (debugPort c) (stopOnEntry c) (containerEnvVars c).

(** [config.containerEnvVars = v] *)
Definition set_containerEnvVars (v : list (string * string)) (c : SamLaunchRequestArgs)
  : SamLaunchRequestArgs :=
  mkArgs (type_ c) (name c) (request c) (invokeTarget c) (lambda c) (runtimeFamily c)
         (preLaunchTask c) (baseBuildDir c) (codeRoot c) (templatePath c) (documentUri c)
         (noDebug c) (debugPort c) (stopOnEntry c) (Some v).

(** What the module imports.  Calls that can fail return a [result]; the
    file system is read through [readdirSync] and [statSync_isDirectory]
    ([statSync(p).isDirectory()]), and [readdir] of [fs-extra] lists the same
    directories as [readdirSync]. *)
Class Host : Type := {
  path_join : list string -> string;
  path_dirname : string -> string;
  normalize : string -> string;
  Uri_parse : string -> Uri;
  readdirSync : string -> result (list string);
  statSync_isDirectory : string -> result bool;
  writeFileSync : string -> string -> result unit;
  ChildProcess_run : string -> result unit;
  makeInputTemplate_host : SamLaunchRequestArgs -> result string;
  isImageLambdaConfig : SamLaunchRequestArgs -> bool
}.

Section Model.

Context `{Host}.

Local Open Scope effect_scope.

(** [readdir] of [fs-extra] (asynchronous). *)
Definition readdir (dir : string) : result (list string) := readdirSync dir.

(** The regular expression [/^package\.json$/], as the test it performs. *)
Definition package_json_pattern (file : string) : bool := String.eqb file "package.json".

(** Modelled from the spec: part of [findParentProjectFile], which is not
    among the sources.  The chain of parent directories of a path, nearest
    first: [path.dirname] repeated until it no longer changes the path. *)
Fixpoint parents_from (fuel : nat) (p : string) : list string :=
  match fuel with
  | O => []
  | S n =>
      let d := path_dirname p in
      if String.eqb d p then [] else d :: parents_from n d
  end.

(** Modelled from the spec: the parent directories of a file, for
    [findParentProjectFile]. *)
Definition parents (p : string) : list string := parents_from (String.length p) p.

(** Modelled from the spec: part of [findParentProjectFile].  The first name
    a directory lists that the pattern accepts; a directory that cannot be
    listed has none. *)
Definition project_file_in (projectFile : string -> bool) (dir : string) : option string :=
  match readdirSync dir with
  | Ok files => find projectFile files
  | Failed _ => None
  end.

(** Modelled from the spec: part of [findParentProjectFile].  The project
    file of the first directory of [dirs] that has one. *)
Fixpoint first_project_file (projectFile : string -> bool) (dirs : list string) : option Uri :=
  match dirs with
  | [] => None
  | dir :: rest =>
      match project_file_in projectFile dir with
      | Some file => Some (mkUri (path_join [dir; file]))
      | None => first_project_file projectFile rest
      end
  end.

(** Modelled from the spec: [findParentProjectFile] of
    [shared/utilities/workspaceUtils] is not among the sources.  It returns
    the project file closest to the source file: the first directory in the
    parent chain of the file that lists a name matching the pattern gives the
    file, and [undefined] is returned when no parent directory lists one. *)
Definition findParentProjectFile (sourceCodeUri : Uri) (projectFile : string -> bool)
  : option Uri :=
  first_project_file projectFile (parents (fsPath sourceCodeUri)).

Definition getSamProjectDirPathForFile (filepath : string) : result string :=
  let packageJsonPath := findParentProjectFile (Uri_parse filepath) package_json_pattern in
  match packageJsonPath with
  | None => Failed (mkError "Error" ("Cannot find package.json for: " ++ filepath))
  | Some packageJsonPath => Ok (path_dirname (fsPath packageJsonPath))
  end.

(** [makeInputTemplate(config)] writes a temporary template and returns its path. *)
Definition makeInputTemplate (config : SamLaunchRequestArgs) : M SamLaunchRequestArgs string :=
  p <- call (makeInputTemplate_host config) ;;
  emit (MakeInputTemplate p) ;;
  ret p.

(** [getLogger(channel).<level>(text)] *)
Definition log {C} (channel : option string) (level : LogLevel) (text : string) : M C unit :=
  emit (Logged channel level text).

(** [config?.templatePath ?? config.documentUri!!.fsPath]: reading [fsPath] of
    an undefined [documentUri] is a [TypeError]. *)
Definition template_or_document (config : SamLaunchRequestArgs) : result string :=
  match templatePath config with
  | Some t => Ok t
  | None =>
      match documentUri config with
      | Some u => Ok (fsPath u)
      | None => Failed (mkError "TypeError" "Cannot read property 'fsPath' of undefined")
      end
  end.

Definition makeTypescriptConfig : M SamLaunchRequestArgs NodejsDebugConfiguration :=
  config <- read ;;
  (if negb (truthy (baseBuildDir config))
   then throw_Error "invalid state: config.baseBuildDir was not set"
   else ret tt) ;;
  (if negb (truthy (codeRoot config))
   then
     filepath <- call (template_or_document config) ;;
     dir <- call (getSamProjectDirPathForFile filepath) ;;
     assign (set_codeRoot (normalize dir)) ;;
     config <- read ;;
     if negb (truthy (codeRoot config))
     then throw_Error "missing launch.json, template.yaml, and failed to discover project root"
     else ret tt
   else ret tt) ;;
  config <- read ;;
  match codeRoot config with
  | None => throw (mkError "TypeError" "path must be a string")
  | Some root => assign (set_codeRoot (normalize root))
  end ;;
  config <- read ;;
  templatePath <- makeInputTemplate config ;;
  assign (set_templatePath templatePath) ;;
  config <- read ;;
  let isImageLambda := isImageLambdaConfig config in
  (if isImageLambda && negb (match noDebug config with Some b => b | None => false end)
   then
     assign (set_containerEnvVars
       [("NODE_OPTIONS",
         "--inspect-brk=0.0.0.0:"
           ++ match debugPort config with Some p => Number_toString p | None => "undefined" end
           ++ " --max-http-header-size 81920")])
   else ret tt) ;;
  config <- read ;;
  roots <-
    match lambda config with
    | Some (mkLambda _ (Some ((first :: _) as mappings))) =>
        (if negb (Nat.eqb (List.length mappings) 1)
         then log None LogWarn
                "This language only supports a single path mapping entry. Taking the first entry in the list."
         else ret tt) ;;
        ret (Some (pm_localRoot first), Some (pm_remoteRoot first))
    | _ => ret (None, None)
    end ;;
  let localRoot : option string := fst roots in
  let remoteRoot : option string := snd roots in
  let nodejsLaunchConfig : NodejsDebugConfiguration :=
    {| launchArgs :=
         {| type_ := "node";
            name := name config;
            request := match noDebug config with Some true => "launch" | _ => "attach" end;
            invokeTarget := invokeTarget config;
            lambda := lambda config;
            runtimeFamily := Some NodeJS;
            preLaunchTask := None;
            baseBuildDir := baseBuildDir config;
            codeRoot := codeRoot config;
            templatePath := TypescriptSamDebug.templatePath config;
            documentUri := documentUri config;
            noDebug := noDebug config;
            debugPort := debugPort config;
            stopOnEntry :=
              match stopOnEntry config with
              | VUndefined => VBool false
              | v => VBool (ToBoolean v)
              end;
            containerEnvVars := containerEnvVars config |};
       address := "localhost";
       port := match debugPort config with Some p => p | None => (-1)%Z end;
       localRoot := match localRoot with Some l => Some l | None => codeRoot config end;
       remoteRoot := match remoteRoot with Some r => r | None => "/var/task" end;
       protocol := "inspector";
       skipFiles := ["/var/runtime/node_modules/**/*.js"; "<node_internals>/**/*.js"] |} in
  ret nodejsLaunchConfig.

(** The loop of [hasTypeScriptFilesRecursive] over the names of [dir];
    [recurse] is the recursive call. *)
Fixpoint scan_files (recurse : string -> outcome bool) (dir : string) (files : list string)
  : outcome bool :=
  match files with
  | [] => Return false
  | file :: rest =>
      if String.eqb (substr file (-3)) ".ts"
      then Return true
      else
        match statSync_isDirectory (path_join [dir; file]) with
        | Failed e => Throw e
        | Ok true =>
            match recurse (path_join [dir; file]) with
            | Return true => Return true
            | Return false => scan_files recurse dir rest
            | other => other
            end
        | Ok false => scan_files recurse dir rest
        end
  end.

Fixpoint hasTypeScriptFilesRecursive (fuel : nat) (dir : string) : outcome bool :=
  match fuel with
  | O => OutOfFuel
  | S fuel' =>
      match readdirSync dir with
      | Failed e => Throw e
      | Ok files => scan_files (hasTypeScriptFilesRecursive fuel') dir files
      end
  end.

Definition defaultTsconfig : json :=
  JsonObject
    [("compilerOptions",
      JsonObject
        [("target", JsonString "es6");
         ("module", JsonString "commonjs");
         ("typeRoots", JsonArray [JsonString "node_modules/@types"]);
         ("types", JsonArray [JsonString "node"]);
         ("rootDir", JsonString ".");
         ("sourceMap", JsonBool true)])].

(** [writeFileSync(path, content)] *)
Definition writeFile {C} (path content : string) : M C unit :=
  emit (WriteFile path content) ;; call (writeFileSync path content).

(** [await new ChildProcess(true, command).run()] *)
Definition runChildProcess {C} (command : string) : M C unit :=
  emit (RunProcess command) ;; call (ChildProcess_run command).

(** A [string] argument that is [undefined] at run time: [path.join] and
    [readdir] reject it with a [TypeError]. *)
Definition string_argument {C} (s : option string) : M C string :=
  match s with
  | Some s => ret s
  | None => throw (mkError "TypeError" "The path argument must be of type string. Received undefined")
  end.

Definition compileTypeScript (fuel : nat) : M NodejsDebugConfiguration unit :=
  config <- @read NodejsDebugConfiguration ;;
  if String.eqb (target (invokeTarget config)) "code"
  then
    base <- string_argument (baseBuildDir config) ;;
    let samBuildOutputAppRoot := path_join [base; "output"; "awsToolkitSamLocalResource"] in
    let tsconfigPath := path_join [samBuildOutputAppRoot; "tsconfig.json"] in
    root <- string_argument (codeRoot config) ;;
    files <- call (readdir root) ;;
    found <- (if includes files "tsconfig.json"
              then ret true
              else lift (hasTypeScriptFilesRecursive fuel root)) ;;
    if found
    then
      let compileCommand := ["tsc"; "--project"; samBuildOutputAppRoot] in
      try_catch
        (writeFile tsconfigPath (stringify defaultTsconfig) ;;
         log (Some "channel") LogInfo "Compiling TypeScript" ;;
         runChildProcess (join compileCommand " "))
        (fun error =>
           log (Some "channel") LogError ("Compile Error: " ++ Error_toString error) ;;
           throw_Error "Failed to compile typescript Lambda")
    else ret tt
  else ret tt.

(** *** Vocabulary of the statements *)

(** A name ends in [.ts]. *)
Definition ends_in_ts (file : string) : Prop := exists stem, file = stem ++ ".ts".

(** [dir] can be walked: it and every directory below it can be listed, and
    every entry can be examined. A derivation is finite, so the tree is. *)
Inductive walkable : string -> Prop :=
| walkable_dir (dir : string) (files : list string) :
    readdirSync dir = Ok files ->
    (forall file, In file files ->
       exists d, statSync_isDirectory (path_join [dir; file]) = Ok d) ->
    (forall file, In file files ->
       statSync_isDirectory (path_join [dir; file]) = Ok true ->
       walkable (path_join [dir; file])) ->
    walkable dir.

(** Some entry, at any depth below [dir], has a name ending in [.ts]. *)
Inductive ts_entry_below : string -> Prop :=
| ts_entry_here (dir : string) (files : list string) (file : string) :
    readdirSync dir = Ok files -> In file files -> ends_in_ts file ->
    ts_entry_below dir
| ts_entry_deeper (dir : string) (files : list string) (file : string) :
    readdirSync dir = Ok files -> In file files ->
    statSync_isDirectory (path_join [dir; file]) = Ok true ->
    ts_entry_below (path_join [dir; file]) ->
    ts_entry_below dir.

(** Some file (an entry that is not a directory), at any depth below [dir],
    has a name ending in [.ts]: a TypeScript file. *)
Inductive ts_file_below : string -> Prop :=
| ts_file_here (dir : string) (files : list string) (file : string) :
    readdirSync dir = Ok files -> In file files -> ends_in_ts file ->
    statSync_isDirectory (path_join [dir; file]) = Ok false ->
    ts_file_below dir
| ts_file_deeper (dir : string) (files : list string) (file : string) :
    readdirSync dir = Ok files -> In file files ->
    statSync_isDirectory (path_join [dir; file]) = Ok true ->
    ts_file_below (path_join [dir; file]) ->
    ts_file_below dir.

(** The walk can deal with the entry [file] of [dir]: the entry can be
    examined, and if it is a directory, that directory can be walked. *)
Definition examinable (dir file : string) : Prop :=
  exists d, statSync_isDirectory (path_join [dir; file]) = Ok d /\
            (d = true -> walkable (path_join [dir; file])).

(** The walk of [dir] reaches a TypeScript file: a file whose name ends in
    [.ts], in [dir] or below, such that the walk can deal with every entry
    listed before it, and before each directory on the way down to it.
    Nothing is asked of the entries listed after. *)
Inductive ts_file_reached : string -> Prop :=
| ts_file_reached_here (dir : string) (before after : list string) (file : string) :
    readdirSync dir = Ok (before ++ file :: after)%list ->
    (forall f, In f before -> examinable dir f) ->
    ends_in_ts file ->
    statSync_isDirectory (path_join [dir; file]) = Ok false ->
    ts_file_reached dir
| ts_file_reached_deeper (dir : string) (before after : list string) (file : string) :
    readdirSync dir = Ok (before ++ file :: after)%list ->
    (forall f, In f before -> examinable dir f) ->
    statSync_isDirectory (path_join [dir; file]) = Ok true ->
    ts_file_reached (path_join [dir; file]) ->
    ts_file_reached dir.

(** [dir] lists a file named exactly [package.json]. *)
Definition lists_package_json (dir : string) : Prop :=
  exists files, readdirSync dir = Ok files /\ In "package.json" files.

(** [dir] is the nearest parent directory of the path [p] that lists a
    [package.json]. *)
Definition nearest_package_dir (p dir : string) : Prop :=
  exists nearer farther,
    parents p = (nearer ++ dir :: farther)%list /\
    lists_package_json dir /\
    (forall d, In d nearer -> ~ lists_package_json d).

(** The value [config.codeRoot] holds when the temporary template is made:
    the given root, or else the discovered project directory, normalized. *)
Definition resolves_codeRoot (config : SamLaunchRequestArgs) (root : string) : Prop :=
  (truthy (codeRoot config) = true /\ exists given, codeRoot config = Some given /\ root = normalize given)
  \/
  (truthy (codeRoot config) = false /\
   exists filepath dir,
     template_or_document config = Ok filepath /\
     getSamProjectDirPathForFile filepath = Ok dir /\
     normalize dir <> EmptyString /\
     root = normalize (normalize dir)).

(** From [n] steps on, the walk of [dir] returns [b]. *)
Definition settled (dir : string) (n : nat) (b : bool) : Prop :=
  forall fuel, n <= fuel -> hasTypeScriptFilesRecursive fuel dir = Return b.

(** The error [compileTypeScript] throws, and what it logs. *)
Definition compile_failure : Error := mkError "Error" "Failed to compile typescript Lambda".

Definition compile_error_log (e : Error) : Event :=
  Logged (Some "channel") LogError ("Compile Error: " ++ Error_toString e).

Definition compiling_log : Event := Logged (Some "channel") LogInfo "Compiling TypeScript".

(** The first entry of [config.lambda.pathMappings], when the property is
    defined and the array is not empty. *)
Definition first_mapping (config : SamLaunchRequestArgs) : option PathMapping :=
  match lambda config with
  | Some l => match pathMappings l with Some (m :: _) => Some m | _ => None end
  | None => None
  end.

(** The number of path mappings given. *)
Definition mapping_count (config : SamLaunchRequestArgs) : nat :=
  match lambda config with
  | Some l => match pathMappings l with Some ms => List.length ms | None => 0 end
  | None => 0
  end.

Definition single_mapping_warning : Event :=
  Logged None LogWarn
    "This language only supports a single path mapping entry. Taking the first entry in the list.".

(** The fields of the launch configuration that do not depend on the project. *)
Definition node_launch_fields (config : SamLaunchRequestArgs)
    (result : NodejsDebugConfiguration) : Prop :=
  type_ result = "node" /\
  protocol result = "inspector" /\
  address result = "localhost" /\
  runtimeFamily result = Some NodeJS /\
  preLaunchTask result = None /\
  request result = match noDebug config with Some true => "launch" | _ => "attach" end /\
  port result = match debugPort config with Some p => p | None => (-1)%Z end /\
  stopOnEntry result =
    match stopOnEntry config with
    | VUndefined => VBool false
    | v => VBool (ToBoolean v)
    end.

(** [baseBuildDir] is unset: undefined or empty. *)
Definition unset (s : option string) : Prop := s = None \/ s = Some EmptyString.

(** The environment [makeTypescriptConfig] gives the container of an image
    Lambda under debug: [debugPort] is interpolated as it is. *)
Definition node_options (config : SamLaunchRequestArgs) : list (string * string) :=
  [("NODE_OPTIONS",
    "--inspect-brk=0.0.0.0:"
      ++ match debugPort config with Some p => Number_toString p | None => "undefined" end
      ++ " --max-http-header-size 81920")].

(** [after] differs from [before] in [codeRoot], [templatePath] and
    [containerEnvVars] at most. *)
Definition untouched (before after : SamLaunchRequestArgs) : Prop :=
  type_ after = type_ before /\
  name after = name before /\
  request after = request before /\
  invokeTarget after = invokeTarget before /\
  lambda after = lambda before /\
  runtimeFamily after = runtimeFamily before /\
  preLaunchTask after = preLaunchTask before /\
  baseBuildDir after = baseBuildDir before /\
  documentUri after = documentUri before /\
  noDebug after = noDebug before /\
  debugPort after = debugPort before /\
  stopOnEntry after = stopOnEntry before.

(** The properties the launch configuration takes over from [config] as they are. *)
Definition inherits (result : NodejsDebugConfiguration) (config : SamLaunchRequestArgs) : Prop :=
  name result = name config /\
  invokeTarget result = invokeTarget config /\
  lambda result = lambda config /\
  baseBuildDir result = baseBuildDir config /\
  codeRoot result = codeRoot config /\
  templatePath result = templatePath config /\
  documentUri result = documentUri config /\
  noDebug result = noDebug config /\
  debugPort result = debugPort config /\
  containerEnvVars result = containerEnvVars config.

(** [config.debugPort] is undefined or a safe integer: what the decimal
    digits of [Number_toString] hold for. *)
Definition safe_debugPort (config : SamLaunchRequestArgs) : Prop :=
  match debugPort config with
  | Some p => safe_integer p
  | None => True
  end.

(** [config.noDebug] is not set to true: the Lambda is debugged. *)
Definition debugging (config : SamLaunchRequestArgs) : bool :=
  negb match noDebug config with Some b => b | None => false end.

(** The outside calls a run of [compileTypeScript] can make: none, or the
    write of [tsconfig.json] first, then the compiler, a failure of either
    being logged. *)
Inductive compile_trace (tsconfigPath command : string) : list Event -> Prop :=
| compile_skipped : compile_trace tsconfigPath command []
| compile_not_written (e : Error) :
    writeFileSync tsconfigPath (stringify defaultTsconfig) = Failed e ->
    compile_trace tsconfigPath command
      [WriteFile tsconfigPath (stringify defaultTsconfig); compile_error_log e]
| compile_not_run (e : Error) :
    writeFileSync tsconfigPath (stringify defaultTsconfig) = Ok tt ->
    ChildProcess_run command = Failed e ->
    compile_trace tsconfigPath command
      [WriteFile tsconfigPath (stringify defaultTsconfig); compiling_log;
       RunProcess command; compile_error_log e]
| compile_done :
    writeFileSync tsconfigPath (stringify defaultTsconfig) = Ok tt ->
    ChildProcess_run command = Ok tt ->
    compile_trace tsconfigPath command
      [WriteFile tsconfigPath (stringify defaultTsconfig); compiling_log; RunProcess command].

End Model.

(** *** A table-driven host, for running the model on concrete inputs *)

(** The part of a path before its last slash, if it has a slash. *)
Fixpoint before_last_slash (s : string) : option string :=
  match s with
  | EmptyString => None
  | String c rest =>
      match before_last_slash rest with
      | Some d => Some (String c d)
      | None => if Ascii.eqb c "/" then Some EmptyString else None
      end
  end.

Definition table_dirname (s : string) : string :=
  match before_last_slash s with
  | Some EmptyString => "/"
  | Some d => d
  | None => "."
  end.

(** Backslashes become slashes. *)
Fixpoint table_normalize (s : string) : string :=
  match s with
  | EmptyString => EmptyString
  | String c rest =>
      String (if Ascii.eqb c (ascii_of_nat 92) then "/"%char else c) (table_normalize rest)
  end.

(** [vscode.Uri.parse(value).fsPath] for an absolute POSIX path without
    percent escapes: the value is read as a URI with no scheme, whose path
    ends before the first [?] (the query) or [#] (the fragment); the scheme
    defaults to [file], and [fsPath] is that path. *)
Fixpoint uri_path (value : string) : string :=
  match value with
  | EmptyString => EmptyString
  | String c rest =>
      if Ascii.eqb c "?" || Ascii.eqb c "#" then EmptyString
      else String c (uri_path rest)
  end.

(** A file system as a table: a path is a file ([None]) or a directory with
    the names it lists. *)
Definition FileTable : Type := list (string * option (list string)).

Fixpoint table_find (t : FileTable) (p : string) : option (option (list string)) :=
  match t with
  | [] => None
  | (q, node) :: rest => if String.eqb p q then Some node else table_find rest p
  end.

Definition ENOENT (p : string) : Error :=
  mkError "Error" ("ENOENT: no such file or directory, " ++ p).

Definition ENOTDIR (p : string) : Error :=
  mkError "Error" ("ENOTDIR: not a directory, " ++ p).

Definition tableHost (t : FileTable) (write run : result unit) (template : result string)
    (image : bool) : Host :=
  {| path_join := fun parts => String.concat "/" parts;
     path_dirname := table_dirname;
     normalize := table_normalize;
     Uri_parse := fun value => mkUri (uri_path value);
     readdirSync := fun p =>
       match table_find t p with
       | Some (Some files) => Ok files
       | Some None => Failed (ENOTDIR p)
       | None => Failed (ENOENT p)
       end;
     statSync_isDirectory := fun p =>
       match table_find t p with
       | Some (Some _) => Ok true
       | Some None => Ok false
       | None => Failed (ENOENT p)
       end;
     writeFileSync := fun _ _ => write;
     ChildProcess_run := fun _ => run;
     makeInputTemplate_host := fun _ => template;
     isImageLambdaConfig := fun _ => image |}.

(** A project with a manifest, a JavaScript handler and TypeScript sources. *)
Definition tsProject : FileTable :=
  [ ("/", Some ["ws"]);
    ("/ws", Some ["app"]);
    ("/ws/app", Some ["package.json"; "src"; "app.js"]);
    ("/ws/app/package.json", None);
    ("/ws/app/app.js", None);
    ("/ws/app/src", Some ["handler.ts"]);
    ("/ws/app/src/handler.ts", None) ].

(** A project without TypeScript sources. *)
Definition jsProject : FileTable :=
  [ ("/", Some ["ws"]);
    ("/ws", Some ["js"]);
    ("/ws/js", Some ["lib"; "app.js"]);
    ("/ws/js/lib", Some ["util.js"]);
    ("/ws/js/lib/util.js", None);
    ("/ws/js/app.js", None) ].

(** A JavaScript project with an empty directory whose name ends in [.ts]. *)
Definition tsNamedDirectory : FileTable :=
  [ ("/", Some ["ws"]);
    ("/ws", Some ["js"]);
    ("/ws/js", Some ["app.js"; "gen.ts"]);
    ("/ws/js/app.js", None);
    ("/ws/js/gen.ts", Some []) ].

Definition okHost (t : FileTable) : Host :=
  tableHost t (Ok tt) (Ok tt) (Ok "/tmp/build/app___vsctk___template.yaml") false.

Definition sampleArgs : SamLaunchRequestArgs :=
  {| type_ := "aws-sam";
     name := "debug handler";
     request := "direct-invoke";
     invokeTarget := mkInvokeTarget "code";
     lambda := None;
     runtimeFamily := None;
     preLaunchTask := None;
     baseBuildDir := Some "/tmp/build";
     codeRoot := Some "/ws/app";
     templatePath := None;
     documentUri := Some (mkUri "/ws/app/src/handler.ts");
     noDebug := None;
     debugPort := Some 5858%Z;
     stopOnEntry := VUndefined;
     containerEnvVars := None |}.

(** [sampleArgs] with another target, code root and build directory. *)
Definition sampleArgs_with (tgt : string) (root build : option string) : SamLaunchRequestArgs :=
  {| type_ := "aws-sam";
     name := "debug handler";
     request := "direct-invoke";
     invokeTarget := mkInvokeTarget tgt;
     lambda := None;
     runtimeFamily := None;
     preLaunchTask := None;
     baseBuildDir := build;
     codeRoot := root;
     templatePath := None;
     documentUri := Some (mkUri "/ws/app/src/handler.ts");
     noDebug := None;
     debugPort := Some 5858%Z;
     stopOnEntry := VUndefined;
     containerEnvVars := None |}.

(** No code root given: it is discovered from the document. *)
Definition discoverArgs : SamLaunchRequestArgs :=
  sampleArgs_with "code" None (Some "/tmp/build").

(** Two path mappings given. *)
Definition mappedArgs : SamLaunchRequestArgs :=
  {| type_ := "aws-sam";
     name := "debug handler";
     request := "direct-invoke";
     invokeTarget := mkInvokeTarget "template";
     lambda :=
       Some (mkLambda (Some "nodejs12.x")
               (Some [mkPathMapping "/ws/app/src" "/var/task/src";
                      mkPathMapping "/ws/app/lib" "/var/task/lib"]));
     runtimeFamily := None;
     preLaunchTask := None;
     baseBuildDir := Some "/tmp/build";
     codeRoot := Some "/ws/app";
     templatePath := Some "/ws/app/template.yaml";
     documentUri := None;
     noDebug := Some true;
     debugPort := None;
     stopOnEntry := VString "yes";
     containerEnvVars := None |}.

(** A launch configuration as [makeTypescriptConfig] builds it from [args]. *)
Definition sampleNodejs (args : SamLaunchRequestArgs) : NodejsDebugConfiguration :=
  {| launchArgs := args;
     address := "localhost";
     port := 5858%Z;
     localRoot := codeRoot args;
     remoteRoot := "/var/task";
     protocol := "inspector";
     skipFiles := ["/var/runtime/node_modules/**/*.js"; "<node_internals>/**/*.js"] |}.

(** An image Lambda to debug, with no port chosen. *)
Definition imageArgs : SamLaunchRequestArgs :=
  {| type_ := "aws-sam";
     name := "debug image";
     request := "direct-invoke";
     invokeTarget := mkInvokeTarget "template";
     lambda := Some (mkLambda (Some "nodejs12.x") None);
     runtimeFamily := None;
     preLaunchTask := None;
     baseBuildDir := Some "/tmp/build";
     codeRoot := Some "/ws/app";
     templatePath := Some "/ws/app/template.yaml";
     documentUri := None;
     noDebug := None;
     debugPort := None;
     stopOnEntry := VUndefined;
     containerEnvVars := None |}.

(** An image Lambda to debug on port 9229. *)
Definition imagePortArgs : SamLaunchRequestArgs :=
  {| type_ := "aws-sam";
     name := "debug image";
     request := "direct-invoke";
     invokeTarget := mkInvokeTarget "template";
     lambda := Some (mkLambda (Some "nodejs12.x") None);
     runtimeFamily := None;
     preLaunchTask := None;
     baseBuildDir := Some "/tmp/build";
     codeRoot := Some "/ws/app";
     templatePath := Some "/ws/app/template.yaml";
     documentUri := None;
     noDebug := None;
     debugPort := Some 9229%Z;
     stopOnEntry := VUndefined;
     containerEnvVars := None |}.

(** The temporary template cannot be written. *)
Definition noTemplateHost : Host :=
  tableHost tsProject (Ok tt) (Ok tt)
    (Failed (mkError "Error" "EACCES: permission denied, open template.yaml")) false.

(** Every configuration is that of an image Lambda. *)
Definition imageHost : Host :=
  tableHost tsProject (Ok tt) (Ok tt) (Ok "/tmp/build/app___vsctk___template.yaml") true.

(** [pathutil.normalize] gives the empty path. *)
Definition blankNormalizeHost : Host :=
  {| path_join := fun parts => String.concat "/" parts;
     path_dirname := table_dirname;
     normalize := fun _ => EmptyString;
     Uri_parse := fun value => mkUri (uri_path value);
     readdirSync := @readdirSync (okHost tsProject);
     statSync_isDirectory := @statSync_isDirectory (okHost tsProject);
     writeFileSync := fun _ _ => Ok tt;
     ChildProcess_run := fun _ => Ok tt;
     makeInputTemplate_host := fun _ => Ok "/tmp/build/app___vsctk___template.yaml";
     isImageLambdaConfig := fun _ => false |}.

(** A TypeScript project with its own [tsconfig.json]. *)
Definition tsconfigProject : FileTable :=
  [ ("/", Some ["ws"]);
    ("/ws", Some ["app"]);
    ("/ws/app", Some ["package.json"; "tsconfig.json"; "app.ts"]);
    ("/ws/app/package.json", None);
    ("/ws/app/tsconfig.json", None);
    ("/ws/app/app.ts", None) ].

(** [tsProject] with the entries of every directory listed in another order. *)
Definition tsProjectReordered : FileTable :=
  [ ("/", Some ["ws"]);
    ("/ws", Some ["app"]);
    ("/ws/app", Some ["app.js"; "src"; "package.json"]);
    ("/ws/app/package.json", None);
    ("/ws/app/app.js", None);
    ("/ws/app/src", Some ["handler.ts"]);
    ("/ws/app/src/handler.ts", None) ].

(** A project in a directory whose name holds a [#]. *)
Definition sharpProject : FileTable :=
  [ ("/", Some ["ws"]);
    ("/ws", Some ["c#"]);
    ("/ws/c#", Some ["app"]);
    ("/ws/c#/app", Some ["package.json"; "src"]);
    ("/ws/c#/app/package.json", None);
    ("/ws/c#/app/src", Some ["handler.ts"]);
    ("/ws/c#/app/src/handler.ts", None) ].

(** [sharpProject] inside a workspace that has a [package.json] of its own. *)
Definition sharpProjectInWorkspace : FileTable :=
  [ ("/", Some ["ws"]);
    ("/ws", Some ["package.json"; "c#"]);
    ("/ws/package.json", None);
    ("/ws/c#", Some ["app"]);
    ("/ws/c#/app", Some ["package.json"; "src"]);
    ("/ws/c#/app/package.json", None);
    ("/ws/c#/app/src", Some ["handler.ts"]);
    ("/ws/c#/app/src/handler.ts", None) ].

(** A TypeScript project that lists a link to nowhere, [current], before its
    handler: the link cannot be examined. *)
Definition brokenLinkFirst : FileTable :=
  [ ("/", Some ["ws"]);
    ("/ws", Some ["app"]);
    ("/ws/app", Some ["current"; "handler.ts"]);
    ("/ws/app/handler.ts", None) ].

(** The same project with the link named [zcurrent], so that it is listed
    after the handler. *)
Definition brokenLinkLast : FileTable :=
  [ ("/", Some ["ws"]);
    ("/ws", Some ["app"]);
    ("/ws/app", Some ["handler.ts"; "zcurrent"]);
    ("/ws/app/handler.ts", None) ].

(** Walks a concrete table. *)
Ltac walk_table :=
  let Hin := fresh "Hin" in
  let Hdir := fresh "Hdir" in
  eapply walkable_dir;
  [ reflexivity
  | intros ? Hin; cbn in Hin;
    repeat (destruct Hin as [<- | Hin]); try contradiction; eexists; reflexivity
  | intros ? Hin Hdir; cbn in Hin;
    repeat (destruct Hin as [<- | Hin]); try contradiction;
    vm_compute in Hdir; try discriminate Hdir; walk_table ].

(** Unfolds [compileTypeScript] up to its host calls. *)
Ltac run_compile :=
  cbv [compileTypeScript bind read ret throw call lift string_argument];
  cbn [object trace].

(** Evaluates a host call on a concrete table where it stands in [H]. *)
Ltac listing H :=
  vm_compute in H; first [discriminate H | injection H as <-].

(** Refutes [H] by turning it, with [lem], into a computation that fails. *)
Ltac refute_by lem H := apply lem in H; vm_compute in H; discriminate H.

End TypescriptSamDebug.

(* ================================================================== *)
(** ** The SAM integration tests *)

Module SamIntegrationTest.

Import Js.

Record TestScenario : Type := mkScenario {
  displayName : string;
  runtime : string;
  baseImage : option string;
  path : string;
  debugSessionType : string;
  language : string;
  dependencyManager : string
}.

Definition scenarios : list TestScenario :=
  [ (* zips *)
    {| runtime := "nodejs10.x"; displayName := "nodejs10.x (ZIP)"; baseImage := None;
       path := "hello-world/app.js"; debugSessionType := "pwa-node";
       language := "javascript"; dependencyManager := "npm" |};
    {| runtime := "nodejs12.x"; displayName := "nodejs12.x (ZIP)"; baseImage := None;
       path := "hello-world/app.js"; debugSessionType := "pwa-node";
       language := "javascript"; dependencyManager := "npm" |};
    {| runtime := "nodejs14.x"; displayName := "nodejs14.x (ZIP)"; baseImage := None;
       path := "hello-world/app.js"; debugSessionType := "pwa-node";
       language := "javascript"; dependencyManager := "npm" |};
    {| runtime := "python2.7"; displayName := "python2.7 (ZIP)"; baseImage := None;
       path := "hello_world/app.py"; debugSessionType := "python";
       language := "python"; dependencyManager := "pip" |};
    {| runtime := "python3.6"; displayName := "python3.6 (ZIP)"; baseImage := None;
       path := "hello_world/app.py"; debugSessionType := "python";
       language := "python"; dependencyManager := "pip" |};
    {| runtime := "python3.7"; displayName := "python3.7 (ZIP)"; baseImage := None;
       path := "hello_world/app.py"; debugSessionType := "python";
       language := "python"; dependencyManager := "pip" |};
    {| runtime := "python3.8"; displayName := "python3.8 (ZIP)"; baseImage := None;
       path := "hello_world/app.py"; debugSessionType := "python";
       language := "python"; dependencyManager := "pip" |};
    {| runtime := "java8"; displayName := "java8 (Gradle ZIP)"; baseImage := None;
       path := "HelloWorldFunction/src/main/java/helloworld/App.java";
       debugSessionType := "java"; language := "java"; dependencyManager := "gradle" |};
    {| runtime := "java8.al2"; displayName := "java8.al2 (Maven ZIP)"; baseImage := None;
       path := "HelloWorldFunction/src/main/java/helloworld/App.java";
       debugSessionType := "java"; language := "java"; dependencyManager := "maven" |};
    {| runtime := "java11"; displayName := "java11 (Gradle ZIP)"; baseImage := None;
       path := "HelloWorldFunction/src/main/java/helloworld/App.java";
       debugSessionType := "java"; language := "java"; dependencyManager := "gradle" |};
    (* images *)
    {| runtime := "nodejs10.x"; displayName := "nodejs10.x (Image)";
       baseImage := Some "amazon/nodejs10.x-base";
       path := "hello-world/app.js"; debugSessionType := "pwa-node";
       language := "javascript"; dependencyManager := "npm" |};
    {| runtime := "nodejs12.x"; displayName := "nodejs12.x (Image)";
       baseImage := Some "amazon/nodejs12.x-base";
       path := "hello-world/app.js"; debugSessionType := "pwa-node";
       language := "javascript"; dependencyManager := "npm" |};
    {| runtime := "nodejs14.x"; displayName := "nodejs14.x (Image)";
       baseImage := Some "amazon/nodejs14.x-base";
       path := "hello-world/app.js"; debugSessionType := "pwa-node";
       language := "javascript"; dependencyManager := "npm" |};
    {| runtime := "python3.6"; displayName := "python3.6 (Image)";
       baseImage := Some "amazon/python3.6-base";
       path := "hello_world/app.py"; debugSessionType := "python";
       language := "python"; dependencyManager := "pip" |};
    {| runtime := "python3.7"; displayName := "python3.7 (Image)";
       baseImage := Some "amazon/python3.7-base";
       path := "hello_world/app.py"; debugSessionType := "python";
       language := "python"; dependencyManager := "pip" |};
    {| runtime := "java8"; displayName := "java8 (Maven Image)";
       path := "HelloWorldFunction/src/main/java/helloworld/App.java";
       baseImage := Some "amazon/java8-base";
       debugSessionType := "java"; language := "java"; dependencyManager := "maven" |};
    {| runtime := "java8.al2"; displayName := "java8.al2 (Gradle Image)";
       path := "HelloWorldFunction/src/main/java/helloworld/App.java";
       baseImage := Some "amazon/java8.al2-base";
       debugSessionType := "java"; language := "java"; dependencyManager := "gradle" |};
    {| runtime := "java11"; displayName := "java11 (Maven Image)";
       path := "HelloWorldFunction/src/main/java/helloworld/App.java";
       baseImage := Some "amazon/java11-base";
       debugSessionType := "java"; language := "java"; dependencyManager := "maven" |} ].

(** [debugSession.configuration], read as [any]: a property that is absent
    reads as [undefined]. *)
Record DebugConfiguration : Type := mkDebugConfiguration {
  configuration_name : value;
  configuration_runtime : value
}.

Record DebugSession : Type := mkDebugSession {
  session_type : string;
  session_name : string;
  configuration : DebugConfiguration
}.

Definition double_quote : string := String quote_char EmptyString.
Definition newline : string := String (ascii_of_nat 10) EmptyString.

(** The debug configuration [testTarget] starts the debugger with. *)
Record TestConfig : Type := mkTestConfig {
  config_type : string;
  config_request : string;
  config_name : string;
  config_target : string;
  config_logicalId : string;
  config_lambda_runtime : option string
}.

(** How a call of [testTarget] goes on: its assertion on a session left over
    from an earlier test fails, or [startDebugger] is called with the test
    configuration, after the lines pushed on [sessionLog]. *)
Inductive TargetRun : Type :=
| AssertionFailed (e : Error)
| StartDebugger (sessionLog : list string) (testConfig : TestConfig).

(** How a test case goes: skipped by [this.skip()], or through
    [testTarget] for an invoke target. *)
Inductive TestRun : Type :=
| Skipped
| TestTarget (target : string) (run : TargetRun).

Section Harness.

(** [JSON.stringify] of a debug session, whose object layout the editor
    defines: compact, and indented by two. *)
Variable JSON_stringify : DebugSession -> string.
Variable JSON_stringify_2 : DebugSession -> string.

(** [vscode.debug.activeDebugSession] once [testTarget] has waited for earlier
    sessions to go away, by scenario index and target. *)
Variable activeDebugSession : nat -> string -> option DebugSession.

(** Returns a string if there is a validation issue, [undefined] if there is
    no issue. *)
Definition validateSamDebugSession (debugSession : DebugSession)
    (expectedName expectedRuntime : string) : option string :=
  let runtime := configuration_runtime (configuration debugSession) in
  let name := configuration_name (configuration debugSession) in
  if negb (strict_equal name (VString expectedName))
     || negb (strict_equal runtime (VString expectedRuntime))
  then
    let failMsg :=
      ("Unexpected DebugSession (expected name=" ++ double_quote ++ expectedName ++ double_quote
         ++ " runtime=" ++ double_quote ++ expectedRuntime ++ double_quote ++ "):")
      ++ (newline ++ JSON_stringify debugSession) in
    Some failMsg
  else None.

(** [testTarget(target, extraConfig)] for the scenario at [scenarioIndex]. *)
Definition testTarget (scenarioIndex : nat) (scenario : TestScenario) (target : string)
  : TargetRun :=
  let testConfig :=
    {| config_type := "aws-sam";
       config_request := "direct-invoke";
       config_name := "test-config-" ++ Number_toString (Z.of_nat scenarioIndex);
       config_target := target;
       config_logicalId := "HelloWorldFunction";
       (* runtime is optional for ZIP, but required for image-based *)
       config_lambda_runtime :=
         if truthy (baseImage scenario) then Some (runtime scenario) else None |} in
  match activeDebugSession scenarioIndex target with
  | None => StartDebugger [] testConfig
  | Some session =>
      (* We exclude the Node debug type since it causes the most erroneous failures with CI. *)
      if String.eqb (session_type session) "pwa-node"
      then StartDebugger
             ["(WARNING) Unexpected debug session " ++ session_name session] testConfig
      else AssertionFailed
             (mkError "AssertionError"
                ("unexpected debug session in progress: " ++ JSON_stringify_2 session))
  end.

(** [it('target=api: invokes and attaches on debug request (F5)', ...)] *)
Definition test_target_api (vscode_version : string) (scenarioIndex : nat)
    (scenario : TestScenario) : TestRun :=
  if startsWith vscode_version "1.42" && String.eqb (language scenario) "python"
  then Skipped
  else TestTarget "api" (testTarget scenarioIndex scenario "api").

(** [it('target=template: invokes and attaches on debug request (F5)', ...)] *)
Definition test_target_template (vscode_version : string) (scenarioIndex : nat)
    (scenario : TestScenario) : TestRun :=
  if startsWith vscode_version "1.42" && String.eqb (language scenario) "python"
  then Skipped
  else TestTarget "template" (testTarget scenarioIndex scenario "template").

(** The loop [for (scenarioIndex = 0; scenarioIndex < scenarios.length; scenarioIndex++)]:
    the debug test cases of every scenario, in order, with their titles. *)
Fixpoint debug_tests_from (vscode_version : string) (scenarioIndex : nat)
    (rest : list TestScenario) : list (nat * string * TestRun) :=
  match rest with
  | [] => []
  | scenario :: rest' =>
      (scenarioIndex, "target=api: invokes and attaches on debug request (F5)",
       test_target_api vscode_version scenarioIndex scenario)
      :: (scenarioIndex, "target=template: invokes and attaches on debug request (F5)",
          test_target_template vscode_version scenarioIndex scenario)
      :: debug_tests_from vscode_version (S scenarioIndex) rest'
  end.

Definition debug_tests (vscode_version : string) : list (nat * string * TestRun) :=
  debug_tests_from vscode_version 0 scenarios.

(** *** Vocabulary of the statements *)

(** Under editor version [vscode_version], a test case of the scenario at
    [scenarioIndex] goes through [testTarget] for invoke target [target]. *)
Definition exercised (vscode_version : string) (scenarioIndex : nat) (target : string) : Prop :=
  exists title run,
    In (scenarioIndex, title, TestTarget target run) (debug_tests vscode_version).

End Harness.

(** ZIP packaging: no base image. Image packaging: a base image. *)
Definition is_zip (s : TestScenario) : Prop := baseImage s = None.
Definition is_image (s : TestScenario) : Prop := baseImage s <> None.

(** The table has a scenario of language [lang] in both packagings. *)
Definition covers_language (lang : string) : Prop :=
  (exists s, In s scenarios /\ language s = lang /\ is_zip s) /\
  (exists s, In s scenarios /\ language s = lang /\ is_image s).

Definition covered_runtimes : list string :=
  ["nodejs10.x"; "nodejs12.x"; "nodejs14.x"; "python2.7"; "python3.6"; "python3.7";
   "python3.8"; "java8"; "java8.al2"; "java11"].

(** *** The code lens helpers *)

(** An argument of a code lens command, typed [any] in the source: an object
    with or without a [rootUri] ([AddSamDebugConfigurationInput] has one), or
    any other value. *)
Inductive Argument : Type :=
| ObjectArgument (rootUri : option Uri)
| ValueArgument (v : value).

(** [vscode.Command], as far as the source reads it. *)
Record Command : Type := mkCommand {
  command_id : string;
  arguments : option (list Argument)
}.

(** [vscode.CodeLens] *)
Record CodeLens : Type := mkCodeLens { lens_command : option Command }.

(** The callback given to [codeLenses.filter] in [getAddConfigCodeLens]. *)
Definition is_add_config_lens (codeLens : CodeLens) : bool :=
  match lens_command codeLens with
  | Some cmd =>
      match arguments cmd with
      | Some args =>
          if Nat.eqb (List.length args) 3
          then String.eqb (command_id cmd) "aws.pickAddSamDebugConfiguration"
          else false
      | None => false
      end
  | None => false
  end.

(** One attempt of [getAddConfigCodeLens] (the function [waitUntil] polls),
    from what [getCodeLenses] gave: the value returned, and the lines written
    with [console.log]. *)
Definition getAddConfigCodeLens_attempt (lenses : result (option (list CodeLens)))
  : option (list CodeLens) * list string :=
  match lenses with
  | Failed e =>
      (None,
       ["sam.test.ts: getAddConfigCodeLens(): failed, retrying:" ++ newline ++ Error_toString e])
  | Ok None => (None, [])
  | Ok (Some codeLenses) =>
      if Nat.eqb (List.length codeLenses) 0
      then (None, [])
      else
        (* omnisharp spits out some undefined code lenses for some reason, we filter them *)
        let codeLenses := filter is_add_config_lens codeLenses in
        if Nat.ltb 0 (List.length codeLenses)
        then (Some codeLenses, [])
        else (None, [])
  end.

(** [assert.ok(value, message)] and [assert.fail(message)] *)
Definition AssertionError (text : string) : Error := mkError "AssertionError" text.

(** Truthiness of an [Argument]. *)
Definition Argument_truthy (a : Argument) : bool :=
  match a with
  | ObjectArgument _ => true
  | ValueArgument v => ToBoolean v
  end.

Section CodeLensRoot.

(** [path.dirname], and the message [assert.strictEqual] makes up for two
    values that differ. *)
Variable path_dirname : string -> string.
Variable strictEqual_message : string -> string -> string.

Definition assertCodeLensReferencesHasSameRoot (codeLens : CodeLens) (expectedUri : Uri)
  : result unit :=
  match lens_command codeLens with
  | None => Failed (AssertionError "CodeLens did not have a command")
  | Some command =>
      match arguments command with
      | None => Failed (AssertionError "CodeLens command had no arguments")
      | Some commandArguments =>
          if negb (Nat.eqb (List.length commandArguments) 3)
          then Failed (AssertionError "CodeLens command had unexpected arg count")
          else
            match commandArguments with
            | [] => Failed (AssertionError "unexpected non-defined command argument")
            | params :: _ =>
                if negb (Argument_truthy params)
                then Failed (AssertionError "unexpected non-defined command argument")
                else
                  match params with
                  | ObjectArgument (Some rootUri) =>
                      let actual := path_dirname (fsPath rootUri) in
                      let expected := path_dirname (fsPath expectedUri) in
                      if String.eqb actual expected
                      then Ok tt
                      else Failed (AssertionError (strictEqual_message actual expected))
                  | _ =>
                      Failed (mkError "TypeError" "Cannot read property 'fsPath' of undefined")
                  end
            end
      end
  end.

End CodeLensRoot.

(** *** The manifest of a scenario and [sam init] *)

(** A regular expression literal, by its source text. *)
Record RegExp : Type := mkRegExp { source : string }.

(** The [switch] of the code lens test: the manifest file to look for, or the
    [assert.fail] it ends in. *)
Definition manifestFile (scenario : TestScenario) : result RegExp :=
  if String.eqb (language scenario) "javascript" then Ok (mkRegExp "^package\.json$")
  else if String.eqb (language scenario) "python" then Ok (mkRegExp "^requirements\.txt$")
  else if String.eqb (language scenario) "csharp" then Ok (mkRegExp "^.*\.csproj$")
  else if String.eqb (language scenario) "java" then
    if String.eqb (dependencyManager scenario) "maven" then Ok (mkRegExp "^.*pom\.xml$")
    else if String.eqb (dependencyManager scenario) "gradle" then Ok (mkRegExp "^.*build\.gradle$")
    else Failed (AssertionError
                   ("invalid dependency manager for java: " ++ dependencyManager scenario))
  else Failed (AssertionError "invalid scenario language").

(** [helloWorldTemplate] of [lambda/models/samTemplates]; the source names no other. *)
Inductive SamTemplate : Type :=
| helloWorldTemplate
| otherSamTemplate (tag : nat).

Record SamCliInitArgs : Type := mkInitArgs {
  init_name : string;
  init_location : string;
  init_dependencyManager : string;
  init_baseImage : option string;
  init_runtime : option string;
  init_template : option SamTemplate
}.

Definition samApplicationName : string := "testProject".

(** [createSamApplication(location)]: the arguments it gives [runSamCliInit]. *)
Definition createSamApplication (scenario : TestScenario) (location : string) : SamCliInitArgs :=
  if truthy (baseImage scenario)
  then
    {| init_name := samApplicationName;
       init_location := location;
       init_dependencyManager := dependencyManager scenario;
       init_baseImage := baseImage scenario;
       init_runtime := None;
       init_template := None |}
  else
    {| init_name := samApplicationName;
       init_location := location;
       init_dependencyManager := dependencyManager scenario;
       init_baseImage := None;
       init_runtime := Some (runtime scenario);
       init_template := Some helloWorldTemplate |}.

(** *** [startDebugger] *)

(** The promise [success]. *)
Inductive PromiseState : Type :=
| Pending
| Fulfilled
| Rejected (reason : Error).

(** What [startDebugger] and its event handler act on. *)
Record DebugRun : Type := mkDebugRun {
  success : PromiseState;
  sessionLog : list string;
  console : list string;
  executed : list string
}.

(** [resolve()] and [reject(reason)]: a settled promise stays as it is. *)
Definition resolve (st : DebugRun) : DebugRun :=
  match success st with
  | Pending => mkDebugRun Fulfilled (sessionLog st) (console st) (executed st)
  | _ => st
  end.

Definition reject (reason : Error) (st : DebugRun) : DebugRun :=
  match success st with
  | Pending => mkDebugRun (Rejected reason) (sessionLog st) (console st) (executed st)
  | _ => st
  end.

(** [String.prototype.padEnd(n, ' ')] *)
Fixpoint spaces (n : nat) : string :=
  match n with
  | O => EmptyString
  | S n' => String " " (spaces n')
  end.

Definition padEnd (s : string) (n : nat) : string := s ++ spaces (n - String.length s).

(** [s[0]] in a template literal: the first character, or [undefined]. *)
Definition first_char (s : string) : string :=
  match s with
  | EmptyString => "undefined"
  | String c _ => String c EmptyString
  end.

(** [logSession(startEnd, name)] of the scenario at [scenarioIndex]. *)
Definition logSession (scenarioIndex : nat) (scenario : TestScenario) (target : string)
    (startEnd name : string) (st : DebugRun) : DebugRun :=
  let line : string :=
    "scenario " ++ Number_toString (Z.of_nat scenarioIndex) ++ "." ++ first_char target
      ++ " " ++ padEnd startEnd 5 ++ " " ++ target ++ "/" ++ displayName scenario
      ++ ": " ++ name in
  mkDebugRun (success st) (sessionLog st ++ [line])%list (console st) (executed st).

(** [vscode.commands.executeCommand(command)] *)
Definition executeCommand (command : string) (st : DebugRun) : DebugRun :=
  mkDebugRun (success st) (sessionLog st) (console st) (executed st ++ [command])%list.

Definition continueDebugger (st : DebugRun) : DebugRun :=
  executeCommand "workbench.action.debug.continue" st.

Definition stopDebugger (logMsg : option string) (st : DebugRun) : DebugRun :=
  let st :=
    if truthy logMsg
    then
      let line : string :=
        "sam.test.ts: stopDebugger(): " ++ match logMsg with Some m => m | None => "" end in
      mkDebugRun (success st) (sessionLog st) (console st ++ [line])%list (executed st)
    else st in
  executeCommand "workbench.action.debug.stop" st.

Section TerminateHandler.

Variable JSON_stringify : DebugSession -> string.

(** The handler [startDebugger] registers with
    [vscode.debug.onDidTerminateDebugSession]. *)
Definition onDidTerminateDebugSession (scenarioIndex : nat) (scenario : TestScenario)
    (target : string) (testConfig : TestConfig) (session : DebugSession) (st : DebugRun)
  : DebugRun :=
  let st := logSession scenarioIndex scenario target "END" (session_name session) st in
  let sessionRuntime := configuration_runtime (configuration session) in
  if negb (ToBoolean sessionRuntime)
  then
    (* It's a coprocess, ignore it. *)
    st
  else
    let failMsg :=
      validateSamDebugSession JSON_stringify session (config_name testConfig) (runtime scenario) in
    let st :=
      if truthy failMsg
      then reject (mkError "Error" match failMsg with Some m => m | None => "" end) st
      else st in
    let st := resolve st in
    stopDebugger (Some (runtime scenario ++ " / onDidTerminateDebugSession")) st.

(** The sessions that terminate while the handler is registered, in order. *)
Definition terminations (scenarioIndex : nat) (scenario : TestScenario) (target : string)
    (testConfig : TestConfig) (sessions : list DebugSession) (st : DebugRun) : DebugRun :=
  fold_left
    (fun st session =>
       onDidTerminateDebugSession scenarioIndex scenario target testConfig session st)
    sessions st.

(** *** Vocabulary of the statements *)

(** A session that is not a coprocess: its configuration has a runtime. *)
Definition has_runtime (session : DebugSession) : bool :=
  ToBoolean (configuration_runtime (configuration session)).

(** The session passes [validateSamDebugSession] for the test. *)
Definition validates (testConfig : TestConfig) (scenario : TestScenario)
    (session : DebugSession) : bool :=
  match validateSamDebugSession JSON_stringify session (config_name testConfig)
          (runtime scenario) with
  | None => true
  | Some _ => false
  end.

End TerminateHandler.

(** *** Sample inputs *)

Definition addConfigLens (root : string) : CodeLens :=
  mkCodeLens
    (Some (mkCommand "aws.pickAddSamDebugConfiguration"
             (Some [ObjectArgument (Some (mkUri root)); ValueArgument (VString "handler");
                    ValueArgument (VBool false)]))).

Definition otherLens : CodeLens :=
  mkCodeLens (Some (mkCommand "editor.action.showReferences" (Some []))).

Definition undefinedLens : CodeLens := mkCodeLens None.

Definition nodeScenario : TestScenario :=
  mkScenario "nodejs12.x (ZIP)" "nodejs12.x" None "hello-world/app.js" "pwa-node"
    "javascript" "npm".

Definition imageScenario : TestScenario :=
  mkScenario "python3.7 (Image)" "python3.7" (Some "amazon/python3.7-base")
    "hello_world/app.py" "python" "python" "pip".

End SamIntegrationTest.

(* ================================================================== *)
(** * Properties *)

Import Js.
Import TypescriptSamDebug.

(** ** Strings *)

Lemma substring_all (s : string) : substring 0 (String.length s) s = s.
Proof. induction s as [|c s IH]; simpl; [reflexivity | now rewrite IH]. Qed.

Lemma substring_after_stem (stem t : string) :
  substring (String.length stem) (String.length t) (stem ++ t) = t.
Proof.
  induction stem as [|c stem IH]; simpl.
  - apply substring_all.
  - exact IH.
Qed.

Lemma substring_split (s : string) (n : nat) :
  n <= String.length s ->
  s = substring 0 n s ++ substring n (String.length s - n) s.
Proof.
  revert n; induction s as [|c s IH]; intros n Hn; simpl in *.
  - destruct n; [reflexivity | lia].
  - destruct n as [|n]; simpl.
    + now rewrite substring_all.
    + f_equal. apply IH. lia.
Qed.

Lemma length_append (s t : string) :
  String.length (s ++ t) = String.length s + String.length t.
Proof. induction s as [|c s IH]; simpl; [reflexivity | now rewrite IH]. Qed.

Lemma substr_last3 (s : string) :
  substr s (-3) =
  substring (String.length s - 3) (String.length s - (String.length s - 3)) s.
Proof.
  unfold substr.
  replace ((-3 <? 0)%Z) with true by reflexivity.
  f_equal; lia.
Qed.

(** [file.substr(-3) === '.ts'] holds exactly of the names that end in [.ts]. *)
Lemma substr_ends_in_ts (file : string) :
  substr file (-3) = ".ts" <-> ends_in_ts file.
Proof.
  rewrite substr_last3. split.
  - intros E. exists (substring 0 (String.length file - 3) file).
    rewrite <- E.
    apply substring_split. lia.
  - intros [stem ->].
    rewrite length_append. simpl String.length.
    replace (String.length stem + 3 - 3) with (String.length stem) by lia.
    replace (String.length stem + 3 - String.length stem) with (String.length ".ts")
      by (simpl; lia).
    apply substring_after_stem.
Qed.

Lemma ends_in_ts_dec (file : string) : {ends_in_ts file} + {~ ends_in_ts file}.
Proof.
  destruct (string_dec (substr file (-3)) ".ts") as [E|E].
  - left. now apply substr_ends_in_ts.
  - right. intros Hts. apply E. now apply substr_ends_in_ts.
Qed.

Lemma includes_In (l : list string) (x : string) : includes l x = true <-> In x l.
Proof.
  unfold includes. rewrite existsb_exists. split.
  - intros (y & Hy & E). apply String.eqb_eq in E. now subst.
  - intros Hx. exists x. split; [exact Hx | apply String.eqb_refl].
Qed.

Lemma includes_not_In (l : list string) (x : string) : includes l x = false <-> ~ In x l.
Proof.
  rewrite <- includes_In. destruct (includes l x); split; intros; congruence.
Qed.

Lemma truthy_Some (s : option string) :
  truthy s = true -> exists v, s = Some v /\ v <> EmptyString.
Proof.
  destruct s as [v|]; simpl; [|discriminate].
  intros E. exists v. split; [reflexivity|].
  intros ->. discriminate.
Qed.

Lemma truthy_of_nonempty (v : string) : v <> EmptyString -> truthy (Some v) = true.
Proof.
  intros Hv. simpl. destruct (String.eqb_spec v EmptyString); [contradiction | reflexivity].
Qed.

Lemma unset_falsy (s : option string) : unset s <-> truthy s = false.
Proof.
  unfold unset. split.
  - intros [-> | ->]; reflexivity.
  - destruct s as [v|]; simpl; [|now left].
    destruct (String.eqb_spec v EmptyString) as [->|]; [now right | discriminate].
Qed.

Lemma strict_equal_string (v : value) (s : string) :
  strict_equal v (VString s) = true <-> v = VString s.
Proof.
  destruct v; simpl; try (split; [discriminate | discriminate]).
  rewrite String.eqb_eq. split; [now intros -> | now intros [= ->]].
Qed.

(** ** The directory walk *)

Section DirectoryWalk.

Context `{Host}.

Lemma ts_entry_below_listing (dir : string) (files : list string) :
  readdirSync dir = Ok files ->
  ts_entry_below dir <->
  exists file, In file files /\
    (ends_in_ts file \/
     (statSync_isDirectory (path_join [dir; file]) = Ok true /\
      ts_entry_below (path_join [dir; file]))).
Proof.
  intros Hls. split.
  - intros Hbelow. inversion Hbelow as [d fs f Hd Hin Hts | d fs f Hd Hin Hdir Hdeep]; subst;
      rewrite Hls in Hd; injection Hd as <-; exists f; split; auto.
  - intros (f & Hin & [Hts | [Hdir Hdeep]]).
    + eapply ts_entry_here; eauto.
    + eapply ts_entry_deeper; eauto.
Qed.

(** The loop answers rightly as soon as every recursive call does. *)
Lemma scan_files_sound (recurse : string -> outcome bool) (dir : string) (files : list string)
    (b : bool) :
  (forall file d, In file files -> recurse (path_join [dir; file]) = Return d ->
     (d = true <-> ts_entry_below (path_join [dir; file]))) ->
  scan_files recurse dir files = Return b ->
  (b = true <->
   exists file, In file files /\
     (ends_in_ts file \/
      (statSync_isDirectory (path_join [dir; file]) = Ok true /\
       ts_entry_below (path_join [dir; file])))).
Proof.
  intros Hrec. revert b. induction files as [|file rest IH]; intros b; cbn [scan_files].
  - intros [= <-]. split; [discriminate | intros (f & [] & _)].
  - destruct (String.eqb (substr file (-3)) ".ts") eqn:Ets.
    + intros [= <-]. split; [intros _ | reflexivity].
      exists file. split; [now left|]. left.
      apply substr_ends_in_ts. now apply String.eqb_eq.
    + assert (Hnot : ~ ends_in_ts file).
      { intros E. apply substr_ends_in_ts in E. apply String.eqb_neq in Ets. contradiction. }
      destruct (statSync_isDirectory (path_join [dir; file])) as [[|]|e] eqn:Hd;
        [|intros Hrest|discriminate].
      * destruct (recurse (path_join [dir; file])) as [[|]| |] eqn:Hsub; try discriminate.
        -- intros [= <-]. split; [intros _ | reflexivity].
           exists file. split; [now left|]. right. split; [exact Hd|].
           now apply (Hrec file true (or_introl eq_refl) Hsub).
        -- intros Hrest.
           rewrite (IH (fun f d Hf => Hrec f d (or_intror Hf)) b Hrest). split.
           ++ intros (f & Hf & Hcase). exists f. split; [now right | exact Hcase].
           ++ intros (f & [<- | Hf] & Hcase).
              ** destruct Hcase as [E | [_ Hbelow]]; [contradiction|].
                 apply (Hrec file false (or_introl eq_refl) Hsub) in Hbelow. discriminate.
              ** exists f. split; assumption.
      * rewrite (IH (fun f d Hf => Hrec f d (or_intror Hf)) b Hrest). split.
        -- intros (f & Hf & Hcase). exists f. split; [now right | exact Hcase].
        -- intros (f & [<- | Hf] & Hcase).
           ++ destruct Hcase as [E | [Hdir _]]; [contradiction | congruence].
           ++ exists f. split; assumption.
Qed.

(** Whenever the walk returns, its answer is right, on any file system. *)
Lemma walk_sound (fuel : nat) (dir : string) (b : bool) :
  hasTypeScriptFilesRecursive fuel dir = Return b ->
  (b = true <-> ts_entry_below dir).
Proof.
  revert dir b. induction fuel as [|fuel IH]; intros dir b; cbn [hasTypeScriptFilesRecursive].
  - discriminate.
  - destruct (readdirSync dir) as [files|e] eqn:Hls; [|discriminate].
    intros Hscan.
    rewrite (ts_entry_below_listing dir files Hls).
    apply (scan_files_sound (hasTypeScriptFilesRecursive fuel) dir files b); [|exact Hscan].
    intros file d _. apply IH.
Qed.

(** The loop returns as soon as every entry can be examined and every
    recursive call on a directory is settled. *)
Lemma scan_files_returns (dir : string) (files : list string) :
  (forall file, In file files ->
     exists d, statSync_isDirectory (path_join [dir; file]) = Ok d) ->
  (forall file, In file files ->
     statSync_isDirectory (path_join [dir; file]) = Ok true ->
     exists n b, settled (path_join [dir; file]) n b) ->
  exists n b,
    forall fuel, n <= fuel ->
      scan_files (hasTypeScriptFilesRecursive fuel) dir files = Return b.
Proof.
  induction files as [|file rest IH]; intros Hstat Hrec.
  - exists 0, false. reflexivity.
  - destruct IH as (n & b & Hrun).
    { intros f Hf. apply Hstat. now right. }
    { intros f Hf. apply Hrec. now right. }
    cbn [scan_files].
    destruct (String.eqb (substr file (-3)) ".ts").
    + exists 0, true. reflexivity.
    + destruct (Hstat file (or_introl eq_refl)) as [d Hd]. rewrite Hd.
      destruct d; [|now exists n, b].
      destruct (Hrec file (or_introl eq_refl) Hd) as (m & bd & Hsettled).
      destruct bd.
      * exists m, true. intros fuel Hfuel. now rewrite (Hsettled fuel Hfuel).
      * exists (Nat.max m n), b. intros fuel Hfuel.
        rewrite (Hsettled fuel) by lia. apply Hrun. lia.
Qed.

(** On a directory that can be walked the walk returns, given enough steps. *)
Lemma walk_returns (dir : string) :
  walkable dir -> exists n b, settled dir n b.
Proof.
  induction 1 as [dir files Hls Hstat _ IH].
  destruct (scan_files_returns dir files Hstat IH) as (n & b & Hrun).
  exists (S n), b. intros fuel Hfuel. destruct fuel as [|fuel]; [lia|].
  cbn [hasTypeScriptFilesRecursive]. rewrite Hls. apply Hrun. lia.
Qed.

Lemma walk_settles (dir : string) :
  walkable dir ->
  exists n b, settled dir n b /\ (b = true <-> ts_entry_below dir).
Proof.
  intros Hwalk. destruct (walk_returns dir Hwalk) as (n & b & Hrun).
  exists n, b. split; [exact Hrun|].
  exact (walk_sound n dir b (Hrun n (le_n n))).
Qed.

Lemma ts_file_is_entry (dir : string) : ts_file_below dir -> ts_entry_below dir.
Proof.
  induction 1.
  - eapply ts_entry_here; eauto.
  - eapply ts_entry_deeper; eauto.
Qed.

(** The loop answers true when it gets past the entries listed before a
    point from which it answers true. *)
Lemma scan_files_reaches (dir : string) (before rest : list string) (m : nat) :
  (forall f, In f before -> examinable dir f) ->
  (forall fuel, m <= fuel ->
     scan_files (hasTypeScriptFilesRecursive fuel) dir rest = Return true) ->
  exists n, forall fuel, n <= fuel ->
    scan_files (hasTypeScriptFilesRecursive fuel) dir (before ++ rest) = Return true.
Proof.
  intros Hpast Hrest. induction before as [|f before IH]; [now exists m|].
  destruct IH as (n & Hrun).
  { intros g Hg. apply Hpast. now right. }
  cbn [app scan_files].
  destruct (String.eqb (substr f (-3)) ".ts"); [now exists 0|].
  destruct (Hpast f (or_introl eq_refl)) as (d & Hd & Hsub). rewrite Hd.
  destruct d; [|now exists n].
  destruct (walk_returns _ (Hsub eq_refl)) as (k & b & Hsettled).
  destruct b.
  - exists k. intros fuel Hfuel. now rewrite (Hsettled fuel Hfuel).
  - exists (Nat.max k n). intros fuel Hfuel.
    rewrite (Hsettled fuel) by lia. apply Hrun. lia.
Qed.

(** The walk answers true, given enough steps, when it reaches a TypeScript
    file: what is listed after the file is never looked at. *)
Lemma walk_reaches (dir : string) :
  ts_file_reached dir -> exists n, settled dir n true.
Proof.
  induction 1 as [dir before after file Hls Hpast Hts Hfile
                 |dir before after file Hls Hpast Hdir _ (k & Hsub)].
  - destruct (scan_files_reaches dir before (file :: after) 0 Hpast) as (n & Hrun).
    { intros fuel _. cbn [scan_files].
      apply substr_ends_in_ts in Hts. now rewrite Hts. }
    exists (S n). intros fuel Hfuel. destruct fuel as [|fuel]; [lia|].
    cbn [hasTypeScriptFilesRecursive]. rewrite Hls. apply Hrun. lia.
  - destruct (scan_files_reaches dir before (file :: after) k Hpast) as (n & Hrun).
    { intros fuel Hfuel. cbn [scan_files].
      destruct (String.eqb (substr file (-3)) ".ts"); [reflexivity|].
      now rewrite Hdir, (Hsub fuel Hfuel). }
    exists (S n). intros fuel Hfuel. destruct fuel as [|fuel]; [lia|].
    cbn [hasTypeScriptFilesRecursive]. rewrite Hls. apply Hrun. lia.
Qed.

(** In a directory that can be walked, every TypeScript file is reached or
    another one is before it. *)
Lemma walkable_reaches (dir : string) :
  walkable dir -> ts_file_below dir -> ts_file_reached dir.
Proof.
  intros Hwalk Hbelow. revert Hwalk.
  induction Hbelow as [dir files file Hls Hin Hts Hfile
                      |dir files file Hls Hin Hdir _ IH]; intros Hwalk;
    inversion Hwalk as [d fs Hls' Hstat Hsub]; subst;
    rewrite Hls in Hls'; injection Hls' as <-;
    destruct (in_split _ _ Hin) as (before & after & ->);
    assert (Hpast : forall f, In f before -> examinable dir f)
      by (intros f Hf;
          assert (Hf' : In f (before ++ file :: after)) by (apply in_or_app; now left);
          destruct (Hstat f Hf') as [b Hb]; exists b; split; [exact Hb|];
          intros ->; now apply Hsub).
  - exact (ts_file_reached_here dir before after file Hls Hpast Hts Hfile).
  - apply (ts_file_reached_deeper dir before after file Hls Hpast Hdir).
    apply IH. apply Hsub; [|exact Hdir]. apply in_or_app. right. now left.
Qed.

End DirectoryWalk.

(** ** The launch configuration *)

Section LaunchConfiguration.

Context `{Host}.

(** With a build directory, a code root and a generated template,
    [makeTypescriptConfig] runs to its end; the lemma records what it returns
    and what it leaves in the trace. *)
Lemma makeTypescriptConfig_steps (config : SamLaunchRequestArgs) (tr : list Event)
    (root tp : string) :
  truthy (baseBuildDir config) = true ->
  resolves_codeRoot config root ->
  makeInputTemplate_host (set_codeRoot root config) = Ok tp ->
  exists result w',
    makeTypescriptConfig (mkWorld config tr) = (Return result, w') /\
    node_launch_fields config result /\
    localRoot result =
      match first_mapping config with Some m => Some (pm_localRoot m) | None => Some root end /\
    remoteRoot result =
      match first_mapping config with Some m => pm_remoteRoot m | None => "/var/task" end /\
    trace w' =
      (tr ++ MakeInputTemplate tp
          :: (if Nat.ltb 1 (mapping_count config) then [single_mapping_warning] else []))%list.
Proof.
  intros Hbase Hroot Htp.
  cbv [makeTypescriptConfig bind read ret throw throw_Error assign emit call lift log makeInputTemplate].
  cbn [object trace].
  rewrite Hbase. cbn [negb].
  destruct Hroot as [(Htruthy & given & Hgiven & ->) | (Hfalsy & filepath & dir & Hpath & Hdir & Hnorm & ->)].
  - rewrite Htruthy. cbn [negb object trace]. rewrite Hgiven.
    cbn [object trace]. rewrite Htp.
    destruct config as [ty nm rq it lam rf plt bbd cr tpl du nd dp soe cev].
    cbn [object trace set_codeRoot set_templatePath set_containerEnvVars
         type_ name request invokeTarget lambda runtimeFamily preLaunchTask baseBuildDir
         codeRoot templatePath documentUri noDebug debugPort stopOnEntry containerEnvVars] in *.
    match goal with |- context [if ?c then _ else _] => destruct c end;
    destruct lam as [[rt [[|m [|m' ms]]|]]|];
    cbn; (do 2 eexists; split; [reflexivity|]); unfold node_launch_fields; cbn; repeat split;
    try reflexivity; rewrite <- app_assoc; reflexivity.
  - rewrite Hfalsy. cbn [negb object trace]. rewrite Hpath, Hdir.
    destruct config as [ty nm rq it lam rf plt bbd cr tpl du nd dp soe cev].
    unfold set_codeRoot, set_templatePath, set_containerEnvVars in *.
    cbn [object trace type_ name request invokeTarget lambda runtimeFamily preLaunchTask
         baseBuildDir codeRoot templatePath documentUri noDebug debugPort stopOnEntry
         containerEnvVars] in *.
    rewrite (truthy_of_nonempty _ Hnorm). cbn [negb object trace].
    cbn [object trace type_ name request invokeTarget lambda runtimeFamily preLaunchTask
         baseBuildDir codeRoot templatePath documentUri noDebug debugPort stopOnEntry
         containerEnvVars] in *.
    rewrite Htp.
    match goal with |- context [if ?c then _ else _] => destruct c end;
    destruct lam as [[rt [[|m [|m' ms]]|]]|];
    cbn; (do 2 eexists; split; [reflexivity|]); unfold node_launch_fields; cbn; repeat split;
    try reflexivity; rewrite <- app_assoc; reflexivity.
Qed.

(** Conversely, it only returns in that situation. *)
Lemma makeTypescriptConfig_returns_only_if (config : SamLaunchRequestArgs) (tr : list Event)
    (result : NodejsDebugConfiguration) (w' : World SamLaunchRequestArgs) :
  makeTypescriptConfig (mkWorld config tr) = (Return result, w') ->
  truthy (baseBuildDir config) = true /\
  exists root tp,
    resolves_codeRoot config root /\
    makeInputTemplate_host (set_codeRoot root config) = Ok tp.
Proof.
  cbv [makeTypescriptConfig bind read ret throw throw_Error assign emit call lift log makeInputTemplate].
  cbn [object trace].
  destruct (truthy (baseBuildDir config)) eqn:Hbase; cbn [negb]; [|discriminate].
  destruct (truthy (codeRoot config)) eqn:Hcr; cbn [negb object trace].
  - destruct (truthy_Some _ Hcr) as (given & Hgiven & _).
    rewrite Hgiven. cbn [object trace].
    destruct (makeInputTemplate_host (set_codeRoot (normalize given) config)) as [tp|e] eqn:Htp;
      [|discriminate].
    intros _. split; [reflexivity|].
    exists (normalize given), tp. split; [|exact Htp].
    left. split; [exact Hcr|]. now exists given.
  - destruct (template_or_document config) as [filepath|e] eqn:Hpath; [|discriminate].
    destruct (getSamProjectDirPathForFile filepath) as [dir|e] eqn:Hdir; [|discriminate].
    cbn [object trace].
    destruct (truthy (codeRoot (set_codeRoot (normalize dir) config))) eqn:Hfound;
      cbn [negb]; [|discriminate].
    cbn [object trace].
    replace (codeRoot (set_codeRoot (normalize dir) config)) with (Some (normalize dir)) in *
      by reflexivity.
    destruct (truthy_Some _ Hfound) as (v & Hv & Hne). injection Hv as <-.
    cbn [object trace].
    replace (set_codeRoot (normalize (normalize dir)) (set_codeRoot (normalize dir) config))
      with (set_codeRoot (normalize (normalize dir)) config) by reflexivity.
    destruct (makeInputTemplate_host (set_codeRoot (normalize (normalize dir)) config))
      as [tp|e] eqn:Htp; [|discriminate].
    intros _. split; [reflexivity|].
    exists (normalize (normalize dir)), tp. split; [|exact Htp].
    right. split; [exact Hcr|]. exists filepath, dir. auto.
Qed.


(** C1: every launch configuration [makeTypescriptConfig] returns has type
    [node], protocol [inspector], address [localhost], runtime family NodeJS,
    no pre-launch task, request [launch] when [noDebug] is true and [attach]
    otherwise, port [debugPort] or -1 when undefined, and [stopOnEntry] false
    when undefined and its boolean coercion otherwise; and it does return one
    when [baseBuildDir] is set, the code root resolves and the temporary
    template is generated. *)
Theorem makeTypescriptConfig_node_fields (config : SamLaunchRequestArgs) (tr : list Event) :
  (forall result w',
     makeTypescriptConfig (mkWorld config tr) = (Return result, w') ->
     node_launch_fields config result) /\
  (forall root tp,
     truthy (baseBuildDir config) = true ->
     resolves_codeRoot config root ->
     makeInputTemplate_host (set_codeRoot root config) = Ok tp ->
     exists result w', makeTypescriptConfig (mkWorld config tr) = (Return result, w')).
Proof.
  split.
  - intros result w' Hret.
    destruct (makeTypescriptConfig_returns_only_if _ _ _ _ Hret)
      as (Hbase & root & tp & Hroot & Htp).
    destruct (makeTypescriptConfig_steps config tr root tp Hbase Hroot Htp)
      as (result' & w'' & Hrun & Hfields & _).
    rewrite Hret in Hrun. now injection Hrun as <- <-.
  - intros root tp Hbase Hroot Htp.
    destruct (makeTypescriptConfig_steps config tr root tp Hbase Hroot Htp)
      as (result & w' & Hrun & _).
    now exists result, w'.
Qed.

Lemma resolves_codeRoot_unique (config : SamLaunchRequestArgs) (r1 r2 : string) :
  resolves_codeRoot config r1 -> resolves_codeRoot config r2 -> r1 = r2.
Proof.
  intros [(T1 & g1 & E1 & ->) | (F1 & p1 & d1 & P1 & D1 & _ & ->)]
         [(T2 & g2 & E2 & ->) | (F2 & p2 & d2 & P2 & D2 & _ & ->)];
    try congruence.
Qed.

(** C4: in the configuration returned, the roots are those of the first path
    mapping when [lambda.pathMappings] is defined and not empty (a warning is
    logged exactly when there is more than one entry); otherwise [localRoot]
    is the normalized code root and [remoteRoot] is [/var/task]. *)
Theorem makeTypescriptConfig_roots (config : SamLaunchRequestArgs) (tr : list Event)
    (result : NodejsDebugConfiguration) (w' : World SamLaunchRequestArgs) :
  makeTypescriptConfig (mkWorld config tr) = (Return result, w') ->
  match first_mapping config with
  | Some first =>
      localRoot result = Some (pm_localRoot first) /\
      remoteRoot result = pm_remoteRoot first
  | None =>
      (exists root, resolves_codeRoot config root /\ localRoot result = Some root) /\
      remoteRoot result = "/var/task"
  end /\
  exists tp,
    trace w' =
      (tr ++ MakeInputTemplate tp
          :: (if Nat.ltb 1 (mapping_count config) then [single_mapping_warning] else []))%list.
Proof.
  intros Hret.
  destruct (makeTypescriptConfig_returns_only_if _ _ _ _ Hret) as (Hbase & root & tp & Hroot & Htp).
  destruct (makeTypescriptConfig_steps config tr root tp Hbase Hroot Htp)
    as (result' & w'' & Hrun & _ & Hlocal & Hremote & Htrace).
  rewrite Hret in Hrun. injection Hrun as <- <-.
  split; [|now exists tp].
  destruct (first_mapping config) as [first|].
  - now split.
  - split; [|exact Hremote]. now exists root.
Qed.

(** C8: without [baseBuildDir] (undefined or empty) [makeTypescriptConfig]
    throws [invalid state: config.baseBuildDir was not set] at once: the
    configuration object is as it was and nothing was done outside. *)
Theorem makeTypescriptConfig_requires_baseBuildDir (config : SamLaunchRequestArgs)
    (tr : list Event) :
  unset (baseBuildDir config) ->
  makeTypescriptConfig (mkWorld config tr) =
  (Throw (mkError "Error" "invalid state: config.baseBuildDir was not set"), mkWorld config tr).
Proof.
  intros Hunset. apply unset_falsy in Hunset.
  cbv [makeTypescriptConfig bind read ret throw throw_Error].
  cbn [object]. now rewrite Hunset.
Qed.

End LaunchConfiguration.

(** ** The compile step *)

Section CompileStep.

Context `{Host}.


(** Once the compile step is chosen, the write and the subprocess decide the outcome. *)
Lemma compile_step_outcome (config : NodejsDebugConfiguration) (tr : list Event)
    (base root : string) (files : list string) (fuel : nat) :
  target (invokeTarget config) = "code" ->
  baseBuildDir config = Some base ->
  codeRoot config = Some root ->
  readdir root = Ok files ->
  (includes files "tsconfig.json" = true \/
   hasTypeScriptFilesRecursive fuel root = Return true) ->
  let out := path_join [base; "output"; "awsToolkitSamLocalResource"] in
  let tsconfigPath := path_join [out; "tsconfig.json"] in
  let written := WriteFile tsconfigPath (stringify defaultTsconfig) in
  let run := RunProcess ("tsc --project " ++ out) in
  compileTypeScript fuel (mkWorld config tr) =
  match writeFileSync tsconfigPath (stringify defaultTsconfig) with
  | Failed e =>
      (Throw compile_failure, mkWorld config (tr ++ [written; compile_error_log e]))
  | Ok _ =>
      match ChildProcess_run ("tsc --project " ++ out) with
      | Failed e =>
          (Throw compile_failure,
           mkWorld config (tr ++ [written; compiling_log; run; compile_error_log e]))
      | Ok _ =>
          (Return tt, mkWorld config (tr ++ [written; compiling_log; run]))
      end
  end.
Proof.
  intros Htarget Hbase Hroot Hls Hfound out tsconfigPath written run.
  cbv [compileTypeScript bind read ret throw throw_Error assign emit call lift log
       try_catch writeFile runChildProcess string_argument].
  cbn [object trace].
  rewrite Htarget, Hbase, Hroot. cbn [String.eqb Ascii.eqb Bool.eqb].
  rewrite Hls.
  destruct (includes files "tsconfig.json") eqn:Hinc.
  - fold out. fold tsconfigPath.
    change (Js.join ["tsc"; "--project"; out] " ") with ("tsc --project " ++ out).
    destruct (writeFileSync tsconfigPath (stringify defaultTsconfig)) as [[]|e].
    + destruct (ChildProcess_run ("tsc --project " ++ out)) as [[]|e];
        cbn [object trace]; repeat rewrite <- app_assoc; reflexivity.
    + cbn [object trace]. repeat rewrite <- app_assoc. reflexivity.
  - destruct Hfound as [Hf|Hf]; [discriminate|]. rewrite Hf.
    fold out. fold tsconfigPath.
    change (Js.join ["tsc"; "--project"; out] " ") with ("tsc --project " ++ out).
    destruct (writeFileSync tsconfigPath (stringify defaultTsconfig)) as [[]|e].
    + destruct (ChildProcess_run ("tsc --project " ++ out)) as [[]|e];
        cbn [object trace]; repeat rewrite <- app_assoc; reflexivity.
    + cbn [object trace]. repeat rewrite <- app_assoc. reflexivity.
Qed.


(** C2, as amended: for target [code], when the code root lists
    [tsconfig.json], or holds a TypeScript file that the directory walk
    reaches before any entry it cannot examine, [compileTypeScript] writes the
    default [tsconfig.json] into the SAM build output directory and runs
    [tsc --project] on that directory; a failure of the write or of the
    subprocess is logged and rethrown as [Failed to compile typescript Lambda]. *)
Theorem compileTypeScript_compiles (config : NodejsDebugConfiguration) (tr : list Event)
    (base root : string) (files : list string) :
  target (invokeTarget config) = "code" ->
  baseBuildDir config = Some base ->
  codeRoot config = Some root ->
  readdir root = Ok files ->
  In "tsconfig.json" files \/ ts_file_reached root ->
  let out := path_join [base; "output"; "awsToolkitSamLocalResource"] in
  let tsconfigPath := path_join [out; "tsconfig.json"] in
  let written := WriteFile tsconfigPath (stringify defaultTsconfig) in
  let run := RunProcess ("tsc --project " ++ out) in
  exists n, forall fuel, n <= fuel ->
    compileTypeScript fuel (mkWorld config tr) =
    match writeFileSync tsconfigPath (stringify defaultTsconfig) with
    | Failed e =>
        (Throw compile_failure, mkWorld config (tr ++ [written; compile_error_log e]))
    | Ok _ =>
        match ChildProcess_run ("tsc --project " ++ out) with
        | Failed e =>
            (Throw compile_failure,
             mkWorld config (tr ++ [written; compiling_log; run; compile_error_log e]))
        | Ok _ =>
            (Return tt, mkWorld config (tr ++ [written; compiling_log; run]))
        end
    end.
Proof.
  intros Htarget Hbase Hroot Hls Hfound out tsconfigPath written run.
  destruct Hfound as [Hin | Hreached].
  - exists 0. intros fuel _.
    apply (compile_step_outcome config tr base root files fuel Htarget Hbase Hroot Hls).
    left. now apply includes_In.
  - destruct (walk_reaches root Hreached) as (n & Hrun).
    exists n. intros fuel Hfuel.
    apply (compile_step_outcome config tr base root files fuel Htarget Hbase Hroot Hls).
    right. now apply Hrun.
Qed.

(** For any other target there is no compile step. *)
Lemma compileTypeScript_other_target (config : NodejsDebugConfiguration) (tr : list Event)
    (fuel : nat) :
  target (invokeTarget config) <> "code" ->
  compileTypeScript fuel (mkWorld config tr) = (Return tt, mkWorld config tr).
Proof.
  intros Htarget.
  cbv [compileTypeScript bind read ret]. cbn [object].
  destruct (String.eqb_spec (target (invokeTarget config)) "code"); [contradiction | reflexivity].
Qed.

(** Nor is there one for target [code] when the code root lists no
    [tsconfig.json] and no name below it ends in [.ts]. *)
Lemma compileTypeScript_no_ts_names (config : NodejsDebugConfiguration) (tr : list Event)
    (base root : string) (files : list string) :
  target (invokeTarget config) = "code" ->
  baseBuildDir config = Some base ->
  codeRoot config = Some root ->
  readdir root = Ok files ->
  ~ In "tsconfig.json" files ->
  walkable root ->
  ~ ts_entry_below root ->
  exists n, forall fuel, n <= fuel ->
    compileTypeScript fuel (mkWorld config tr) = (Return tt, mkWorld config tr).
Proof.
  intros Htarget Hbase Hroot Hls Hnone Hwalk Hnots.
  destruct (walk_settles root Hwalk) as (n & b & Hrun & Hb).
  assert (b = false) as -> by (destruct b; [exfalso; now apply Hnots, Hb | reflexivity]).
  exists n. intros fuel Hfuel.
  cbv [compileTypeScript bind read ret throw call lift string_argument].
  cbn [object trace].
  rewrite Htarget, Hbase, Hroot. cbn [String.eqb Ascii.eqb Bool.eqb].
  rewrite Hls.
  apply includes_not_In in Hnone. rewrite Hnone.
  now rewrite (Hrun fuel Hfuel).
Qed.

End CompileStep.

(** ** The project directory of a file *)

Section ProjectDirectory.

Context `{Host}.

Lemma find_package_json (files : list string) :
  (In "package.json" files -> find package_json_pattern files = Some "package.json") /\
  (~ In "package.json" files -> find package_json_pattern files = None).
Proof.
  induction files as [|f files [IHin IHout]]; simpl.
  - split; [intros [] | reflexivity].
  - unfold package_json_pattern at 1 3.
    destruct (String.eqb_spec f "package.json") as [->|Hne].
    + split; [reflexivity | intros Hout; exfalso; apply Hout; now left].
    + split.
      * intros [E|Hin]; [contradiction | now apply IHin].
      * intros Hout. apply IHout. intros Hin. apply Hout. now right.
Qed.

Lemma project_file_in_lists (dir : string) :
  lists_package_json dir -> project_file_in package_json_pattern dir = Some "package.json".
Proof.
  intros (files & Hls & Hin). unfold project_file_in. rewrite Hls.
  now apply find_package_json.
Qed.

Lemma project_file_in_none (dir : string) :
  ~ lists_package_json dir -> project_file_in package_json_pattern dir = None.
Proof.
  intros Hnot. unfold project_file_in.
  destruct (readdirSync dir) as [files|e] eqn:Hls; [|reflexivity].
  apply find_package_json. intros Hin. apply Hnot. now exists files.
Qed.

Lemma lists_package_json_dec (dir : string) :
  {lists_package_json dir} + {~ lists_package_json dir}.
Proof.
  unfold lists_package_json.
  destruct (readdirSync dir) as [files|e] eqn:Hls.
  - destruct (in_dec string_dec "package.json" files) as [Hin|Hout].
    + left. now exists files.
    + right. intros (fs & E & Hin). injection E as <-. contradiction.
  - right. intros (fs & E & _). discriminate.
Qed.

Lemma first_project_file_nearest (nearer farther : list string) (dir : string) :
  lists_package_json dir ->
  (forall d, In d nearer -> ~ lists_package_json d) ->
  first_project_file package_json_pattern (nearer ++ dir :: farther) =
  Some (mkUri (path_join [dir; "package.json"])).
Proof.
  intros Hdir. induction nearer as [|d nearer IH]; intros Hnone; simpl.
  - now rewrite (project_file_in_lists dir Hdir).
  - rewrite (project_file_in_none d) by (apply Hnone; now left).
    apply IH. intros d' Hd'. apply Hnone. now right.
Qed.

Lemma first_project_file_none (dirs : list string) :
  first_project_file package_json_pattern dirs = None <->
  (forall d, In d dirs -> ~ lists_package_json d).
Proof.
  induction dirs as [|d dirs IH]; simpl.
  - split; [intros _ d [] | reflexivity].
  - destruct (lists_package_json_dec d) as [Hd|Hd].
    + rewrite (project_file_in_lists d Hd). split; [discriminate|].
      intros Hnone. exfalso. apply (Hnone d); [now left | exact Hd].
    + rewrite (project_file_in_none d Hd). rewrite IH. split.
      * intros Hnone d' [<-|Hd']; [exact Hd | now apply Hnone].
      * intros Hnone d' Hd'. apply Hnone. now right.
Qed.

Lemma nearest_exists (dirs : list string) :
  (exists d, In d dirs /\ lists_package_json d) ->
  exists nearer dir farther,
    dirs = (nearer ++ dir :: farther)%list /\ lists_package_json dir /\
    (forall d, In d nearer -> ~ lists_package_json d).
Proof.
  induction dirs as [|d dirs IH]; intros (x & Hx & Hlists); [destruct Hx|].
  destruct (lists_package_json_dec d) as [Hd|Hd].
  - exists [], d, dirs. split; [reflexivity|]. split; [exact Hd | intros ? []].
  - destruct Hx as [<-|Hx]; [contradiction|].
    destruct IH as (nearer & dir & farther & -> & Hdir & Hnone); [now exists x|].
    exists (d :: nearer), dir, farther. split; [reflexivity|]. split; [exact Hdir|].
    intros d' [<-|Hd']; [exact Hd | now apply Hnone].
Qed.

(** What the function does: the search is handed [vscode.Uri.parse(filepath)],
    so the function returns the directory part of the [package.json] found in
    the nearest parent directory of the parsed path that lists a file of
    exactly that name; such a nearest directory exists as soon as some parent
    of the parsed path lists one; and the function throws an error starting
    with [Cannot find package.json for:] exactly when none does. *)
Lemma getSamProjectDirPathForFile_searches_parsed_path (filepath : string) :
  let parsed := fsPath (Uri_parse filepath) in
  (forall dir, nearest_package_dir parsed dir ->
     getSamProjectDirPathForFile filepath =
     Ok (path_dirname (path_join [dir; "package.json"]))) /\
  ((exists dir, In dir (parents parsed) /\ lists_package_json dir) ->
   exists dir, nearest_package_dir parsed dir) /\
  ((exists e, getSamProjectDirPathForFile filepath = Failed e /\
              String.prefix "Cannot find package.json for:" (message e) = true) <->
   ~ exists dir, In dir (parents parsed) /\ lists_package_json dir).
Proof.
  intros parsed. subst parsed.
  unfold getSamProjectDirPathForFile, findParentProjectFile, nearest_package_dir.
  split; [|split].
  - intros dir (nearer & farther & -> & Hdir & Hnone).
    now rewrite (first_project_file_nearest nearer farther dir Hdir Hnone).
  - intros Hex. destruct (nearest_exists _ Hex) as (nearer & dir & farther & E & Hdir & Hnone).
    exists dir, nearer, farther. auto.
  - split.
    + intros (e & Hfail & _) (dir & Hin & Hdir).
      destruct (first_project_file package_json_pattern (parents (fsPath (Uri_parse filepath))))
        as [u|] eqn:Hfirst; [discriminate|].
      exact (proj1 (first_project_file_none _) Hfirst dir Hin Hdir).
    + intros Hnone.
      assert (Hfirst : first_project_file package_json_pattern
                         (parents (fsPath (Uri_parse filepath))) = None).
      { apply first_project_file_none. intros d Hin Hd. apply Hnone. now exists d. }
      rewrite Hfirst. eexists. split; [reflexivity|]. reflexivity.
Qed.

(** Two file paths that [vscode.Uri.parse] reads as the same URI get the same
    answer, however the search for the project file proceeds: both a
    directory, the same one, or both an error. *)
Lemma getSamProjectDirPathForFile_same_uri (filepath other : string) :
  Uri_parse filepath = Uri_parse other ->
  match getSamProjectDirPathForFile filepath, getSamProjectDirPathForFile other with
  | Ok dir, Ok dir' => dir = dir'
  | Failed _, Failed _ => True
  | _, _ => False
  end.
Proof.
  intros E. unfold getSamProjectDirPathForFile. rewrite E.
  now destruct (findParentProjectFile (Uri_parse other) package_json_pattern).
Qed.

End ProjectDirectory.

(** ** The scenario table and the harness *)

Section Validation.

Import SamIntegrationTest.

Variable JSON_stringify : DebugSession -> string.

(** C7: [validateSamDebugSession] returns [undefined] exactly when the
    session's configuration has the expected name and the expected runtime;
    otherwise it returns a failure message. *)
Theorem validateSamDebugSession_undefined_iff (debugSession : DebugSession)
    (expectedName expectedRuntime : string) :
  let matches :=
    configuration_name (configuration debugSession) = VString expectedName /\
    configuration_runtime (configuration debugSession) = VString expectedRuntime in
  (validateSamDebugSession JSON_stringify debugSession expectedName expectedRuntime = None
   <-> matches) /\
  (~ matches ->
   exists failMsg,
     validateSamDebugSession JSON_stringify debugSession expectedName expectedRuntime
       = Some failMsg /\
     startsWith failMsg "Unexpected DebugSession" = true).
Proof.
  intros matches. subst matches. unfold validateSamDebugSession.
  rewrite <- !strict_equal_string.
  destruct (strict_equal (configuration_name (configuration debugSession))
              (VString expectedName));
    destruct (strict_equal (configuration_runtime (configuration debugSession))
                (VString expectedRuntime)); cbn [negb orb].
  - split; [split; auto|]. intros Hno. exfalso. apply Hno. auto.
  - split; [split; [discriminate | intros [_ E]; discriminate]|].
    intros _. eexists. split; reflexivity.
  - split; [split; [discriminate | intros [E _]; discriminate]|].
    intros _. eexists. split; reflexivity.
  - split; [split; [discriminate | intros [E _]; discriminate]|].
    intros _. eexists. split; reflexivity.
Qed.

End Validation.

Section ScenarioTable.

Import SamIntegrationTest.

Variable JSON_stringify_2 : DebugSession -> string.
Variable activeDebugSession : nat -> string -> option DebugSession.

Local Abbreviation exercised := (exercised JSON_stringify_2 activeDebugSession).
Local Abbreviation debug_tests_from := (debug_tests_from JSON_stringify_2 activeDebugSession).
Local Abbreviation test_target_api := (test_target_api JSON_stringify_2 activeDebugSession).
Local Abbreviation test_target_template := (test_target_template JSON_stringify_2 activeDebugSession).

(** Every row pairs its language with the debug session type of that language. *)
Lemma scenario_language_and_session (s : TestScenario) :
  In s scenarios ->
  (language s = "javascript" /\ debugSessionType s = "pwa-node") \/
  (language s = "python" /\ debugSessionType s = "python") \/
  (language s = "java" /\ debugSessionType s = "java").
Proof.
  unfold scenarios. cbn [In].
  intros Hin.
  repeat (destruct Hin as [<- | Hin]; [cbn; auto|]).
  destruct Hin.
Qed.

(** C10: in the scenario table the debug session type is a function of the
    language: [pwa-node] for javascript, [python] for python, [java] for java. *)
Theorem debugSessionType_of_language (s : TestScenario) :
  In s scenarios ->
  (language s = "javascript" -> debugSessionType s = "pwa-node") /\
  (language s = "python" -> debugSessionType s = "python") /\
  (language s = "java" -> debugSessionType s = "java") /\
  (forall s', In s' scenarios -> language s' = language s ->
              debugSessionType s' = debugSessionType s).
Proof.
  intros Hin.
  destruct (scenario_language_and_session s Hin) as [[L T] | [[L T] | [L T]]];
    rewrite L, T; (repeat split; try (reflexivity || discriminate));
    intros s' Hin' L';
    destruct (scenario_language_and_session s' Hin') as [[L2 T2] | [[L2 T2] | [L2 T2]]];
    rewrite T2; congruence.
Qed.

(** The test cases of the loop are those of the scenario at each index. *)
Lemma debug_tests_from_In (vscode_version : string) (rest : list TestScenario)
    (first index : nat) (title : string) (run : TestRun) :
  In (index, title, run) (debug_tests_from vscode_version first rest) <->
  exists s, first <= index /\ nth_error rest (index - first) = Some s /\
    (title = "target=api: invokes and attaches on debug request (F5)" /\
     run = test_target_api vscode_version index s
     \/
     title = "target=template: invokes and attaches on debug request (F5)" /\
     run = test_target_template vscode_version index s).
Proof.
  revert first. induction rest as [|s rest IH]; intros first;
    cbn [SamIntegrationTest.debug_tests_from In].
  - split; [intros [] | intros (s & _ & Hnth & _)].
    destruct (index - first); discriminate.
  - rewrite IH. split.
    + intros [E | [E | (s' & Hle & Hnth & Hrun)]].
      * injection E as <- <- <-. exists s. rewrite Nat.sub_diag. auto 6.
      * injection E as <- <- <-. exists s. rewrite Nat.sub_diag. auto 6.
      * exists s'. split; [lia|]. split; [|exact Hrun].
        replace (index - first) with (S (index - S first)) by lia. exact Hnth.
    + intros (s' & Hle & Hnth & Hrun).
      destruct (Nat.eq_dec index first) as [->|Hne].
      * rewrite Nat.sub_diag in Hnth. injection Hnth as <-.
        destruct Hrun as [[-> ->] | [-> ->]]; auto.
      * right. right. exists s'. split; [lia|]. split; [|exact Hrun].
        replace (index - first) with (S (index - S first)) in Hnth by lia. exact Hnth.
Qed.

(** A scenario is exercised for a target exactly when the version gate is open. *)
Lemma exercised_iff (vscode_version : string) (index : nat) (s : TestScenario)
    (target : string) :
  nth_error scenarios index = Some s ->
  target = "api" \/ target = "template" ->
  exercised vscode_version index target <->
  startsWith vscode_version "1.42" && String.eqb (language s) "python" = false.
Proof.
  intros Hnth Htarget. unfold SamIntegrationTest.exercised, debug_tests. split.
  - intros (title & run & Hin).
    apply debug_tests_from_In in Hin. destruct Hin as (s' & _ & Hnth' & Hrun).
    rewrite Nat.sub_0_r, Hnth in Hnth'. injection Hnth' as <-.
    unfold SamIntegrationTest.test_target_api, SamIntegrationTest.test_target_template in Hrun.
    destruct (startsWith vscode_version "1.42" && String.eqb (language s) "python");
      [destruct Hrun as [[_ E] | [_ E]]; discriminate | reflexivity].
  - intros Hgate.
    destruct Htarget as [-> | ->].
    + exists "target=api: invokes and attaches on debug request (F5)".
      eexists.
      apply debug_tests_from_In. exists s. rewrite Nat.sub_0_r.
      split; [lia|]. split; [exact Hnth|].
      unfold SamIntegrationTest.test_target_api. rewrite Hgate.
      left. split; reflexivity.
    + exists "target=template: invokes and attaches on debug request (F5)".
      eexists.
      apply debug_tests_from_In. exists s. rewrite Nat.sub_0_r.
      split; [lia|]. split; [exact Hnth|].
      unfold SamIntegrationTest.test_target_template. rewrite Hgate.
      right. split; reflexivity.
Qed.

(** C5, as amended: the table has javascript, python and java scenarios in
    both ZIP and Image packaging, over exactly the runtimes nodejs10.x,
    nodejs12.x, nodejs14.x, python2.7, python3.6, python3.7, python3.8, java8,
    java8.al2 and java11; and a scenario's test cases go through [testTarget]
    for both the [api] and the [template] target, unless the editor version
    starts with [1.42] and the scenario's language is python, in which case
    both test cases are skipped. *)
Theorem scenario_matrix_coverage :
  covers_language "javascript" /\ covers_language "python" /\ covers_language "java" /\
  (forall r, In r (map runtime scenarios) <-> In r covered_runtimes) /\
  (forall vscode_version index s,
     nth_error scenarios index = Some s ->
     (startsWith vscode_version "1.42" && String.eqb (language s) "python" = false ->
      exercised vscode_version index "api" /\ exercised vscode_version index "template") /\
     (startsWith vscode_version "1.42" && String.eqb (language s) "python" = true ->
      ~ exercised vscode_version index "api" /\ ~ exercised vscode_version index "template")).
Proof.
  split; [|split; [|split; [|split]]].
  - split.
    + exists (nth 0 scenarios (mkScenario "" "" None "" "" "" "")).
      cbn. unfold is_zip. cbn. auto 12.
    + exists (nth 10 scenarios (mkScenario "" "" None "" "" "" "")).
      unfold is_image. cbn. split; [auto 20|]. split; [reflexivity | discriminate].
  - split.
    + exists (nth 3 scenarios (mkScenario "" "" None "" "" "" "")).
      cbn. unfold is_zip. cbn. auto 12.
    + exists (nth 13 scenarios (mkScenario "" "" None "" "" "" "")).
      unfold is_image. cbn. split; [auto 20|]. split; [reflexivity | discriminate].
  - split.
    + exists (nth 7 scenarios (mkScenario "" "" None "" "" "" "")).
      cbn. unfold is_zip. cbn. auto 12.
    + exists (nth 15 scenarios (mkScenario "" "" None "" "" "" "")).
      unfold is_image. cbn. split; [auto 20|]. split; [reflexivity | discriminate].
  - intros r. cbn. intuition (subst; auto 20).
  - intros vscode_version index s Hnth. split; intros Hgate.
    + split; apply (exercised_iff vscode_version index s); auto.
    + split; intros Hex; apply (exercised_iff vscode_version index s) in Hex; auto; congruence.
Qed.

(** Under editor version 1.42.0 the test case of the python2.7 scenario
    (index 3) for the [api] target is skipped. *)
Lemma python_scenario_not_exercised : ~ exercised "1.42.0" 3 "api".
Proof.
  intros Hapi.
  apply (exercised_iff "1.42.0" 3 _ "api" eq_refl (or_introl eq_refl)) in Hapi.
  discriminate Hapi.
Qed.

End ScenarioTable.

(** C5, as stated, fails: under editor version 1.42.0 the python2.7 scenario
    is not exercised, so not every scenario is exercised for both targets. *)
Lemma python_scenario_skipped_on_1_42 :
  ~ (forall JSON_stringify_2 activeDebugSession vscode_version index s,
       nth_error SamIntegrationTest.scenarios index = Some s ->
       SamIntegrationTest.exercised JSON_stringify_2 activeDebugSession
         vscode_version index "api" /\
       SamIntegrationTest.exercised JSON_stringify_2 activeDebugSession
         vscode_version index "template").
Proof.
  intros Hall.
  destruct (Hall (fun _ => EmptyString) (fun _ _ => None) "1.42.0" 3 _ eq_refl) as [Hapi _].
  exact (python_scenario_not_exercised _ _ Hapi).
Qed.

(** ** The model on concrete projects *)

Lemma tsProject_walkable : @walkable (okHost tsProject) "/ws/app".
Proof. walk_table. Qed.

Lemma jsProject_walkable : @walkable (okHost jsProject) "/ws/js".
Proof. walk_table. Qed.


Lemma tsProject_ts_file : @ts_file_below (okHost tsProject) "/ws/app".
Proof.
  eapply (@ts_file_deeper (okHost tsProject) "/ws/app" _ "src");
    [reflexivity | cbn; auto | reflexivity |].
  eapply (@ts_file_here (okHost tsProject) _ _ "handler.ts");
    [reflexivity | cbn; auto | now exists "handler" | reflexivity].
Qed.

Lemma jsProject_no_ts_entry : ~ @ts_entry_below (okHost jsProject) "/ws/js".
Proof.
  intros Hbelow.
  inversion Hbelow as [d fs f Hls Hin Hts | d fs f Hls Hin Hdir Hdeep]; subst; listing Hls;
    cbn in Hin; destruct Hin as [<- | [<- | []]]; try refute_by substr_ends_in_ts Hts; try (listing Hdir; fail).
  inversion Hdeep as [d fs f Hls Hin Hts | d fs f Hls Hin Hdir' Hdeep']; subst; listing Hls;
    cbn in Hin; destruct Hin as [<- | []]; try refute_by substr_ends_in_ts Hts; listing Hdir'.
Qed.

Lemma tsNamedDirectory_no_ts_file : ~ @ts_file_below (okHost tsNamedDirectory) "/ws/js".
Proof.
  intros Hbelow.
  inversion Hbelow as [d fs f Hls Hin Hts Hfile | d fs f Hls Hin Hdir Hdeep]; subst; listing Hls;
    cbn in Hin; destruct Hin as [<- | [<- | []]];
    try refute_by substr_ends_in_ts Hts; try (listing Hfile; fail); try (listing Hdir; fail).
  inversion Hdeep as [d fs f Hls Hin Hts Hfile | d fs f Hls Hin Hdir' Hdeep']; subst; listing Hls;
    destruct Hin.
Qed.

(** C3 at a failing input: the code root lists [app.js] and an empty
    directory named [gen.ts], so it has no [tsconfig.json] and no TypeScript
    file below it; [compileTypeScript] nevertheless writes [tsconfig.json]
    and runs [tsc]. *)
Theorem compileTypeScript_ts_named_directory :
  let config := sampleNodejs (sampleArgs_with "code" (Some "/ws/js") (Some "/tmp/build")) in
  @readdir (okHost tsNamedDirectory) "/ws/js" = Ok ["app.js"; "gen.ts"] /\
  @statSync_isDirectory (okHost tsNamedDirectory) "/ws/js/gen.ts" = Ok true /\
  @readdirSync (okHost tsNamedDirectory) "/ws/js/gen.ts" = Ok [] /\
  ~ @ts_file_below (okHost tsNamedDirectory) "/ws/js" /\
  forall fuel, 1 <= fuel ->
    @compileTypeScript (okHost tsNamedDirectory) fuel (mkWorld config []) =
    (Return tt,
     mkWorld config
       [WriteFile "/tmp/build/output/awsToolkitSamLocalResource/tsconfig.json"
          (stringify defaultTsconfig);
        compiling_log;
        RunProcess "tsc --project /tmp/build/output/awsToolkitSamLocalResource"]).
Proof.
  intros config. split; [reflexivity|]. split; [reflexivity|]. split; [reflexivity|].
  split; [exact tsNamedDirectory_no_ts_file|].
  intros [|fuel] Hfuel; [lia | reflexivity].
Qed.

(** ** Instances *)

Lemma makeTypescriptConfig_node_fields_witness :
  exists result w',
    @makeTypescriptConfig (okHost tsProject) (mkWorld discoverArgs []) = (Return result, w') /\
    node_launch_fields discoverArgs result.
Proof.
  destruct (@makeTypescriptConfig_node_fields (okHost tsProject) discoverArgs [])
    as [Hfields Hreturns].
  destruct (Hreturns "/ws/app" "/tmp/build/app___vsctk___template.yaml") as (result & w' & Hrun).
  - reflexivity.
  - right. split; [reflexivity|].
    exists "/ws/app/src/handler.ts", "/ws/app". repeat split; [discriminate].
  - reflexivity.
  - exists result, w'. split; [exact Hrun | exact (Hfields result w' Hrun)].
Defined.

Lemma makeTypescriptConfig_roots_witness :
  exists result w',
    @makeTypescriptConfig (okHost tsProject) (mkWorld mappedArgs []) = (Return result, w') /\
    ((localRoot result = Some "/ws/app/src" /\ remoteRoot result = "/var/task/src") /\
     exists tp, trace w' = [MakeInputTemplate tp; single_mapping_warning]).
Proof.
  eexists. eexists. split; [lazy; reflexivity|].
  exact (@makeTypescriptConfig_roots (okHost tsProject) mappedArgs [] _ _ eq_refl).
Defined.

Lemma makeTypescriptConfig_requires_baseBuildDir_witness :
  unset (baseBuildDir (sampleArgs_with "code" (Some "/ws/app") None)) /\
  @makeTypescriptConfig (okHost tsProject)
     (mkWorld (sampleArgs_with "code" (Some "/ws/app") None) []) =
  (Throw (mkError "Error" "invalid state: config.baseBuildDir was not set"),
   mkWorld (sampleArgs_with "code" (Some "/ws/app") None) []).
Proof.
  split; [now left|].
  apply (@makeTypescriptConfig_requires_baseBuildDir (okHost tsProject)). now left.
Defined.


Lemma brokenLinkLast_reached : @ts_file_reached (okHost brokenLinkLast) "/ws/app".
Proof.
  apply (@ts_file_reached_here (okHost brokenLinkLast) "/ws/app" [] ["zcurrent"] "handler.ts").
  - reflexivity.
  - intros f [].
  - now exists "handler".
  - reflexivity.
Qed.

Lemma compileTypeScript_compiles_witness :
  @ts_file_reached (okHost brokenLinkLast) "/ws/app" /\
  @statSync_isDirectory (okHost brokenLinkLast) "/ws/app/zcurrent" =
    Failed (ENOENT "/ws/app/zcurrent") /\
  exists n, forall fuel, n <= fuel ->
    @compileTypeScript (okHost brokenLinkLast) fuel (mkWorld (sampleNodejs sampleArgs) []) =
    (Return tt,
     mkWorld (sampleNodejs sampleArgs)
       [WriteFile "/tmp/build/output/awsToolkitSamLocalResource/tsconfig.json"
          (stringify defaultTsconfig);
        compiling_log;
        RunProcess "tsc --project /tmp/build/output/awsToolkitSamLocalResource"]).
Proof.
  split; [exact brokenLinkLast_reached|]. split; [reflexivity|].
  exact (@compileTypeScript_compiles (okHost brokenLinkLast) (sampleNodejs sampleArgs) []
           "/tmp/build" "/ws/app" ["handler.ts"; "zcurrent"]
           eq_refl eq_refl eq_refl eq_refl
           (or_intror brokenLinkLast_reached)).
Defined.

Lemma brokenLinkFirst_ts_file : @ts_file_below (okHost brokenLinkFirst) "/ws/app".
Proof.
  apply (@ts_file_here (okHost brokenLinkFirst) "/ws/app" ["current"; "handler.ts"] "handler.ts").
  - reflexivity.
  - right. now left.
  - now exists "handler".
  - reflexivity.
Qed.

(** C2, as first stated, fails where the walk meets an entry it cannot
    examine before the TypeScript file: the code root holds [handler.ts], yet
    the error of [statSync] comes out as it is, and nothing is written, run
    or logged. *)
Lemma compileTypeScript_broken_link_first :
  target (invokeTarget (sampleNodejs sampleArgs)) = "code" /\
  @ts_file_below (okHost brokenLinkFirst) "/ws/app" /\
  (forall fuel,
     @compileTypeScript (okHost brokenLinkFirst) (S fuel)
        (mkWorld (sampleNodejs sampleArgs) []) =
     (Throw (ENOENT "/ws/app/current"), mkWorld (sampleNodejs sampleArgs) [])) /\
  ENOENT "/ws/app/current" <> compile_failure.
Proof.
  split; [reflexivity|]. split; [exact brokenLinkFirst_ts_file|].
  split; [intros fuel; reflexivity | discriminate].
Qed.

Lemma debugSessionType_of_language_witness :
  let s := SamIntegrationTest.mkScenario "python3.7 (Image)" "python3.7"
             (Some "amazon/python3.7-base") "hello_world/app.py" "python" "python" "pip" in
  In s SamIntegrationTest.scenarios /\
  SamIntegrationTest.debugSessionType s = "python".
Proof.
  intros s.
  assert (Hin : In s SamIntegrationTest.scenarios) by (cbn; auto 20).
  split; [exact Hin|].
  exact (proj1 (proj2 (debugSessionType_of_language s Hin)) eq_refl).
Defined.

Lemma sharpProject_nearest_package_dir :
  @nearest_package_dir (okHost sharpProject) "/ws/c#/app/src/handler.ts" "/ws/c#/app".
Proof.
  exists ["/ws/c#/app/src"], ["/ws/c#"; "/ws"; "/"]. split; [reflexivity|]. split.
  - exists ["package.json"; "src"]. split; [reflexivity | now left].
  - intros d [<- | []] (files & Hls & Hin). listing Hls.
    destruct Hin as [E | []]. discriminate E.
Qed.

Lemma sharpProjectInWorkspace_nearest_package_dir :
  @nearest_package_dir (okHost sharpProjectInWorkspace) "/ws/c#/app/src/handler.ts" "/ws/c#/app".
Proof.
  exists ["/ws/c#/app/src"], ["/ws/c#"; "/ws"; "/"]. split; [reflexivity|]. split.
  - exists ["package.json"; "src"]. split; [reflexivity | now left].
  - intros d [<- | []] (files & Hls & Hin). listing Hls.
    destruct Hin as [E | []]. discriminate E.
Qed.

(** C6: the claim fails on a file path with a [#] in it.  The source hands
    the path to [vscode.Uri.parse], which reads what follows the [#] as the
    fragment of a URI, so the search starts from [/ws/c] and not from the
    file.  The nearest parent directory of [/ws/c#/app/src/handler.ts] that
    lists [package.json] is [/ws/c#/app]; the function throws
    [Cannot find package.json for: ...] all the same, and where the workspace
    directory [/ws] has a [package.json] of its own it returns [/ws]. *)
Theorem getSamProjectDirPathForFile_sharp_in_path :
  fsPath (@Uri_parse (okHost sharpProject) "/ws/c#/app/src/handler.ts") = "/ws/c" /\
  (@nearest_package_dir (okHost sharpProject) "/ws/c#/app/src/handler.ts" "/ws/c#/app" /\
   @getSamProjectDirPathForFile (okHost sharpProject) "/ws/c#/app/src/handler.ts" =
     Failed (mkError "Error" "Cannot find package.json for: /ws/c#/app/src/handler.ts")) /\
  (@nearest_package_dir (okHost sharpProjectInWorkspace)
      "/ws/c#/app/src/handler.ts" "/ws/c#/app" /\
   @getSamProjectDirPathForFile (okHost sharpProjectInWorkspace) "/ws/c#/app/src/handler.ts" =
     Ok "/ws").
Proof.
  split; [reflexivity|]. split.
  - split; [exact sharpProject_nearest_package_dir | reflexivity].
  - split; [exact sharpProjectInWorkspace_nearest_package_dir | reflexivity].
Qed.

Lemma compileTypeScript_other_target_witness :
  target (invokeTarget (sampleNodejs (sampleArgs_with "template" (Some "/ws/app") (Some "/tmp/build"))))
    <> "code" /\
  @compileTypeScript (okHost tsProject) 0
     (mkWorld (sampleNodejs (sampleArgs_with "template" (Some "/ws/app") (Some "/tmp/build"))) []) =
  (Return tt,
   mkWorld (sampleNodejs (sampleArgs_with "template" (Some "/ws/app") (Some "/tmp/build"))) []).
Proof.
  assert (Hne : target (invokeTarget
                  (sampleNodejs (sampleArgs_with "template" (Some "/ws/app") (Some "/tmp/build"))))
                <> "code") by discriminate.
  split; [exact Hne|].
  exact (@compileTypeScript_other_target (okHost tsProject) _ [] 0 Hne).
Defined.

Lemma compileTypeScript_no_ts_names_witness :
  (@walkable (okHost jsProject) "/ws/js" /\ ~ @ts_entry_below (okHost jsProject) "/ws/js") /\
  exists n, forall fuel, n <= fuel ->
    @compileTypeScript (okHost jsProject) fuel
       (mkWorld (sampleNodejs (sampleArgs_with "code" (Some "/ws/js") (Some "/tmp/build"))) []) =
    (Return tt,
     mkWorld (sampleNodejs (sampleArgs_with "code" (Some "/ws/js") (Some "/tmp/build"))) []).
Proof.
  split; [split; [exact jsProject_walkable | exact jsProject_no_ts_entry]|].
  refine (@compileTypeScript_no_ts_names (okHost jsProject)
            (sampleNodejs (sampleArgs_with "code" (Some "/ws/js") (Some "/tmp/build"))) []
            "/tmp/build" "/ws/js" ["lib"; "app.js"]
            eq_refl eq_refl eq_refl eq_refl _ jsProject_walkable jsProject_no_ts_entry).
  intros [E | [E | []]]; discriminate E.
Defined.

(* ================================================================== *)
(** * Further properties *)

(** ** [makeTypescriptConfig]: error paths and the configuration object *)

Section LaunchConfigurationEffects.

Context `{Host}.

(** What a complete run leaves behind: the configuration object with its
    code root normalized, the template path set and, for an image Lambda
    under debug, the container environment; and a result that takes the
    other properties over. *)
Lemma makeTypescriptConfig_effect (config : SamLaunchRequestArgs) (tr : list Event)
    (root tp : string) :
  truthy (baseBuildDir config) = true ->
  resolves_codeRoot config root ->
  makeInputTemplate_host (set_codeRoot root config) = Ok tp ->
  let templated := set_templatePath tp (set_codeRoot root config) in
  let final :=
    if isImageLambdaConfig templated && debugging config
    then set_containerEnvVars (node_options config) templated
    else templated in
  exists result w',
    makeTypescriptConfig (mkWorld config tr) = (Return result, w') /\
    object w' = final /\
    inherits result final.
Proof.
  intros Hbase Hroot Htp.
  cbv [makeTypescriptConfig bind read ret throw throw_Error assign emit call lift log makeInputTemplate].
  cbn [object trace].
  rewrite Hbase. cbn [negb].
  destruct Hroot as [(Htruthy & given & Hgiven & ->) | (Hfalsy & filepath & dir & Hpath & Hdir & Hnorm & ->)].
  - rewrite Htruthy. cbn [negb object trace]. rewrite Hgiven.
    cbn [object trace]. rewrite Htp.
    destruct config as [ty nm rq it lam rf plt bbd cr tpl du nd dp soe cev].
    unfold debugging, node_options, set_codeRoot, set_templatePath, set_containerEnvVars in *.
    cbn [object trace type_ name request invokeTarget lambda runtimeFamily preLaunchTask
         baseBuildDir codeRoot templatePath documentUri noDebug debugPort stopOnEntry
         containerEnvVars] in *.
    match goal with |- context [isImageLambdaConfig ?c && ?d] =>
      destruct (isImageLambdaConfig c && d) end;
    destruct lam as [[rt [[|m [|m' ms]]|]]|];
    cbn; (do 2 eexists; split; [reflexivity|]); unfold inherits; cbn; repeat split; reflexivity.
  - rewrite Hfalsy. cbn [negb object trace]. rewrite Hpath, Hdir.
    destruct config as [ty nm rq it lam rf plt bbd cr tpl du nd dp soe cev].
    unfold debugging, node_options, set_codeRoot, set_templatePath, set_containerEnvVars in *.
    cbn [object trace type_ name request invokeTarget lambda runtimeFamily preLaunchTask
         baseBuildDir codeRoot templatePath documentUri noDebug debugPort stopOnEntry
         containerEnvVars] in *.
    rewrite (truthy_of_nonempty _ Hnorm). cbn [negb object trace].
    cbn [object trace type_ name request invokeTarget lambda runtimeFamily preLaunchTask
         baseBuildDir codeRoot templatePath documentUri noDebug debugPort stopOnEntry
         containerEnvVars] in *.
    rewrite Htp.
    cbn [object trace type_ name request invokeTarget lambda runtimeFamily preLaunchTask
         baseBuildDir codeRoot templatePath documentUri noDebug debugPort stopOnEntry
         containerEnvVars] in *.
    match goal with |- context [isImageLambdaConfig ?c && ?d] =>
      destruct (isImageLambdaConfig c && d) end;
    destruct lam as [[rt [[|m [|m' ms]]|]]|];
    cbn; (do 2 eexists; split; [reflexivity|]); unfold inherits; cbn; repeat split; reflexivity.
Qed.

(** The effect of a run that returned. *)
Lemma makeTypescriptConfig_returned (config : SamLaunchRequestArgs) (tr : list Event)
    (result : NodejsDebugConfiguration) (w' : World SamLaunchRequestArgs) :
  makeTypescriptConfig (mkWorld config tr) = (Return result, w') ->
  exists root tp,
    resolves_codeRoot config root /\
    makeInputTemplate_host (set_codeRoot root config) = Ok tp /\
    object w' =
      (let templated := set_templatePath tp (set_codeRoot root config) in
       if isImageLambdaConfig templated && debugging config
       then set_containerEnvVars (node_options config) templated
       else templated) /\
    inherits result (object w') /\
    trace w' =
      (tr ++ MakeInputTemplate tp
          :: (if Nat.ltb 1 (mapping_count config) then [single_mapping_warning] else []))%list.
Proof.
  intros Hret.
  destruct (makeTypescriptConfig_returns_only_if _ _ _ _ Hret) as (Hbase & root & tp & Hroot & Htp).
  destruct (makeTypescriptConfig_effect config tr root tp Hbase Hroot Htp)
    as (result' & w'' & Hrun & Hobj & Hinh).
  destruct (makeTypescriptConfig_steps config tr root tp Hbase Hroot Htp)
    as (result2 & w2 & Hrun2 & _ & _ & _ & Htrace).
  rewrite Hret in Hrun. injection Hrun as <- <-.
  rewrite Hret in Hrun2. injection Hrun2 as <- <-.
  exists root, tp. rewrite Hobj. auto.
Qed.

(** X3: without a code root, when no [package.json] is found above the
    template path (or, when that is undefined, above the document),
    [makeTypescriptConfig] throws [Cannot find package.json for:] with that
    path; with neither a template path nor a document it fails with a
    [TypeError]; either way the configuration object is as it was and nothing
    was done outside. *)
Theorem makeTypescriptConfig_discovery_fails (config : SamLaunchRequestArgs) (tr : list Event) :
  truthy (baseBuildDir config) = true ->
  truthy (codeRoot config) = false ->
  (forall filepath,
     template_or_document config = Ok filepath ->
     findParentProjectFile (Uri_parse filepath) package_json_pattern = None ->
     makeTypescriptConfig (mkWorld config tr) =
     (Throw (mkError "Error" ("Cannot find package.json for: " ++ filepath)),
      mkWorld config tr)) /\
  (templatePath config = None -> documentUri config = None ->
   exists e, error_name e = "TypeError" /\
     makeTypescriptConfig (mkWorld config tr) = (Throw e, mkWorld config tr)).
Proof.
  intros Hbase Hcr. split.
  - intros filepath Hpath Hnone.
    cbv [makeTypescriptConfig bind read ret throw throw_Error assign emit call lift].
    cbn [object trace]. rewrite Hbase, Hcr. cbn [negb]. rewrite Hpath.
    unfold getSamProjectDirPathForFile. now rewrite Hnone.
  - intros Htpl Hdoc. eexists. split; [|
    cbv [makeTypescriptConfig bind read ret throw throw_Error assign emit call lift];
    cbn [object trace]; rewrite Hbase, Hcr; cbn [negb];
    unfold template_or_document; rewrite Htpl, Hdoc; reflexivity].
    reflexivity.
Qed.

(** X4: when the temporary template cannot be generated, the error of
    [makeInputTemplate] is rethrown as it is; by then [config.codeRoot] has
    been overwritten with the normalized root, and nothing else has changed. *)
Theorem makeTypescriptConfig_template_fails (config : SamLaunchRequestArgs) (tr : list Event)
    (root : string) (e : Error) :
  truthy (baseBuildDir config) = true ->
  resolves_codeRoot config root ->
  makeInputTemplate_host (set_codeRoot root config) = Failed e ->
  makeTypescriptConfig (mkWorld config tr) = (Throw e, mkWorld (set_codeRoot root config) tr).
Proof.
  intros Hbase Hroot Htp.
  cbv [makeTypescriptConfig bind read ret throw throw_Error assign emit call lift log makeInputTemplate].
  cbn [object trace].
  rewrite Hbase. cbn [negb].
  destruct Hroot as [(Htruthy & given & Hgiven & ->) | (Hfalsy & filepath & dir & Hpath & Hdir & Hnorm & ->)].
  - rewrite Htruthy. cbn [negb object trace]. rewrite Hgiven.
    cbn [object trace]. now rewrite Htp.
  - rewrite Hfalsy. cbn [negb object trace]. rewrite Hpath, Hdir.
    cbn [object trace].
    replace (codeRoot (set_codeRoot (normalize dir) config)) with (Some (normalize dir))
      by reflexivity.
    rewrite (truthy_of_nonempty _ Hnorm). cbn [negb object trace].
    replace (codeRoot (set_codeRoot (normalize dir) config)) with (Some (normalize dir))
      by reflexivity.
    cbn [object trace].
    replace (set_codeRoot (normalize (normalize dir)) (set_codeRoot (normalize dir) config))
      with (set_codeRoot (normalize (normalize dir)) config) by reflexivity.
    now rewrite Htp.
Qed.

(** X5: when the discovered project directory normalizes to the empty path,
    [makeTypescriptConfig] throws [missing launch.json, template.yaml, and
    failed to discover project root]; [config.codeRoot] is then the empty
    string, and no template was generated. *)
Theorem makeTypescriptConfig_empty_root (config : SamLaunchRequestArgs) (tr : list Event)
    (filepath dir : string) :
  truthy (baseBuildDir config) = true ->
  truthy (codeRoot config) = false ->
  template_or_document config = Ok filepath ->
  getSamProjectDirPathForFile filepath = Ok dir ->
  normalize dir = EmptyString ->
  makeTypescriptConfig (mkWorld config tr) =
  (Throw (mkError "Error"
            "missing launch.json, template.yaml, and failed to discover project root"),
   mkWorld (set_codeRoot EmptyString config) tr).
Proof.
  intros Hbase Hcr Hpath Hdir Hnorm.
  cbv [makeTypescriptConfig bind read ret throw throw_Error assign emit call lift].
  cbn [object trace]. rewrite Hbase, Hcr. cbn [negb]. rewrite Hpath, Hdir.
  cbn [object trace]. rewrite Hnorm. reflexivity.
Qed.

(** X6: when [makeTypescriptConfig] returns, the configuration object it was
    given has its code root normalized and the path of the temporary template
    as [templatePath]; beside [containerEnvVars] nothing else in it has
    changed (its [type] and [request] are still the caller's); and the
    returned configuration takes over, from the object as updated, every
    property it does not set itself. *)
Theorem makeTypescriptConfig_updates_config (config : SamLaunchRequestArgs) (tr : list Event)
    (result : NodejsDebugConfiguration) (w' : World SamLaunchRequestArgs) :
  makeTypescriptConfig (mkWorld config tr) = (Return result, w') ->
  untouched config (object w') /\
  (exists root, resolves_codeRoot config root /\ codeRoot (object w') = Some root) /\
  (exists tp, templatePath (object w') = Some tp /\ In (MakeInputTemplate tp) (trace w')) /\
  inherits result (object w').
Proof.
  intros Hret.
  destruct (makeTypescriptConfig_returned _ _ _ _ Hret)
    as (root & tp & Hroot & Htp & Hobj & Hinh & Htrace).
  assert (Hfields : templatePath (object w') = Some tp /\ codeRoot (object w') = Some root /\
                    untouched config (object w')).
  { rewrite Hobj. cbv zeta.
    destruct (isImageLambdaConfig _ && debugging config);
      unfold untouched; cbn; repeat split; reflexivity. }
  destruct Hfields as (Ht & Hc & Hu).
  split; [exact Hu|]. split; [now exists root|]. split; [|exact Hinh].
  exists tp. split; [exact Ht|].
  rewrite Htrace. apply in_or_app. right. now left.
Qed.

(** X7: for a [debugPort] that is undefined or a safe integer, the
    configuration object gets [containerEnvVars] exactly when it is that of
    an image Lambda (as [isImageLambdaConfig] sees it once the code root and
    the template path are set) and [noDebug] is not true: then it holds
    [NODE_OPTIONS] alone, with [--inspect-brk=0.0.0.0:] followed by the
    digits of [debugPort]; an undefined [debugPort] is interpolated as the
    text [undefined], although [port] falls back to -1. Otherwise
    [containerEnvVars] is as the caller left it. *)
Theorem makeTypescriptConfig_container_options (config : SamLaunchRequestArgs)
    (tr : list Event) (result : NodejsDebugConfiguration) (w' : World SamLaunchRequestArgs) :
  makeTypescriptConfig (mkWorld config tr) = (Return result, w') ->
  safe_debugPort config ->
  (exists root tp,
     resolves_codeRoot config root /\
     templatePath (object w') = Some tp /\
     containerEnvVars (object w') =
       if isImageLambdaConfig (set_templatePath tp (set_codeRoot root config))
          && debugging config
       then Some (node_options config)
       else containerEnvVars config) /\
  containerEnvVars result = containerEnvVars (object w') /\
  (debugPort config = None ->
   node_options config =
     [("NODE_OPTIONS", "--inspect-brk=0.0.0.0:undefined --max-http-header-size 81920")] /\
   port result = (-1)%Z).
Proof.
  intros Hret _.
  destruct (makeTypescriptConfig_returned _ _ _ _ Hret)
    as (root & tp & Hroot & Htp & Hobj & Hinh & _).
  split; [|split].
  - exists root, tp. split; [exact Hroot|]. rewrite Hobj. cbv zeta.
    destruct (isImageLambdaConfig _ && debugging config); cbn; auto.
  - apply Hinh.
  - intros Hport. split; [unfold node_options; now rewrite Hport|].
    destruct (makeTypescriptConfig_returns_only_if _ _ _ _ Hret)
      as (Hbase & root' & tp' & Hroot' & Htp').
    destruct (makeTypescriptConfig_steps config tr root' tp' Hbase Hroot' Htp')
      as (result2 & w2 & Hrun2 & Hfields & _).
    rewrite Hret in Hrun2. injection Hrun2 as <- <-.
    destruct Hfields as (_ & _ & _ & _ & _ & _ & Hp & _). now rewrite Hp, Hport.
Qed.

End LaunchConfigurationEffects.

(** ** [compileTypeScript]: failures before the compile step, and what it never does *)

Section CompileStepEffects.

Context `{Host}.

(** The ways [compileTypeScript] ends before the compile step. *)
Lemma compile_ends_early (config : NodejsDebugConfiguration) (tr : list Event) (fuel : nat) :
  (target (invokeTarget config) <> "code" ->
   compileTypeScript fuel (mkWorld config tr) = (Return tt, mkWorld config tr)) /\
  (target (invokeTarget config) = "code" ->
   baseBuildDir config = None \/ codeRoot config = None ->
   exists e, error_name e = "TypeError" /\
     compileTypeScript fuel (mkWorld config tr) = (Throw e, mkWorld config tr)) /\
  (forall base root,
     target (invokeTarget config) = "code" ->
     baseBuildDir config = Some base ->
     codeRoot config = Some root ->
     (forall e, readdir root = Failed e ->
        compileTypeScript fuel (mkWorld config tr) = (Throw e, mkWorld config tr)) /\
     (forall files o,
        readdir root = Ok files -> includes files "tsconfig.json" = false ->
        hasTypeScriptFilesRecursive fuel root = o -> o <> Return true ->
        compileTypeScript fuel (mkWorld config tr) =
        (match o with
         | Return _ => Return tt
         | Throw e => Throw e
         | OutOfFuel => OutOfFuel
         end, mkWorld config tr))).
Proof.
  split; [|split].
  - intros Htarget. run_compile.
    destruct (String.eqb_spec (target (invokeTarget config)) "code");
      [contradiction | reflexivity].
  - intros Htarget Hmissing. run_compile.
    rewrite Htarget. cbn [String.eqb Ascii.eqb Bool.eqb].
    destruct (baseBuildDir config) as [base|].
    + destruct Hmissing as [E | ->]; [discriminate|].
      eexists; split; [|reflexivity]; reflexivity.
    + eexists; split; [|reflexivity]; reflexivity.
  - intros base root Htarget Hbase Hroot. split.
    + intros e Hls. run_compile.
      rewrite Htarget, Hbase, Hroot. cbn [String.eqb Ascii.eqb Bool.eqb].
      now rewrite Hls.
    + intros files o Hls Hinc Hwalk Hnot. run_compile.
      rewrite Htarget, Hbase, Hroot. cbn [String.eqb Ascii.eqb Bool.eqb].
      rewrite Hls, Hinc, Hwalk.
      destruct o as [[|]|e|]; [now elim Hnot | reflexivity | reflexivity | reflexivity].
Qed.

(** X8: an error of listing the code root, or one thrown by the directory
    walk, leaves [compileTypeScript] as it is: it is not reported as
    [Failed to compile typescript Lambda], nothing is logged, written or run. *)
Theorem compileTypeScript_listing_fails (config : NodejsDebugConfiguration) (tr : list Event)
    (base root : string) :
  target (invokeTarget config) = "code" ->
  baseBuildDir config = Some base ->
  codeRoot config = Some root ->
  (forall e fuel,
     readdir root = Failed e ->
     compileTypeScript fuel (mkWorld config tr) = (Throw e, mkWorld config tr)) /\
  (forall files e fuel,
     readdir root = Ok files -> ~ In "tsconfig.json" files ->
     hasTypeScriptFilesRecursive fuel root = Throw e ->
     compileTypeScript fuel (mkWorld config tr) = (Throw e, mkWorld config tr)).
Proof.
  intros Htarget Hbase Hroot. split.
  - intros e fuel Hls.
    now apply (proj1 (proj2 (proj2 (compile_ends_early config tr fuel))
                       base root Htarget Hbase Hroot)).
  - intros files e fuel Hls Hnone Hwalk.
    apply includes_not_In in Hnone.
    apply (proj2 (proj2 (proj2 (compile_ends_early config tr fuel))
                    base root Htarget Hbase Hroot) files (Throw e) Hls Hnone Hwalk).
    discriminate.
Qed.

(** X9: for target [code], a configuration without [baseBuildDir], or with
    it but without [codeRoot], fails with a [TypeError] before anything is
    read, written or run. *)
Theorem compileTypeScript_missing_paths (config : NodejsDebugConfiguration) (tr : list Event)
    (fuel : nat) :
  target (invokeTarget config) = "code" ->
  baseBuildDir config = None \/ codeRoot config = None ->
  exists e,
    error_name e = "TypeError" /\
    compileTypeScript fuel (mkWorld config tr) = (Throw e, mkWorld config tr).
Proof.
  intros Htarget Hmissing.
  exact (proj1 (proj2 (compile_ends_early config tr fuel)) Htarget Hmissing).
Qed.

(** X10: whatever the configuration and the file system, [compileTypeScript]
    leaves the configuration as it is, and its outside calls are none, or the
    write of [tsconfig.json] into the build output directory followed, only
    if the write succeeded, by the log line and the run of [tsc --project] on
    that directory; once it has made a call, it ends by returning or by
    throwing [Failed to compile typescript Lambda]. *)
Theorem compileTypeScript_calls (config : NodejsDebugConfiguration) (tr : list Event)
    (fuel : nat) :
  let run := compileTypeScript fuel (mkWorld config tr) in
  object (snd run) = config /\
  exists events,
    trace (snd run) = (tr ++ events)%list /\
    match baseBuildDir config with
    | Some base =>
        let out := path_join [base; "output"; "awsToolkitSamLocalResource"] in
        compile_trace (path_join [out; "tsconfig.json"]) ("tsc --project " ++ out) events
    | None => events = []
    end /\
    (events <> [] ->
     target (invokeTarget config) = "code" /\
     (fst run = Return tt \/ fst run = Throw compile_failure)).
Proof.
  intros run. subst run.
  assert (Hnone : forall o : outcome unit,
    object (snd (o, mkWorld config tr)) = config /\
    exists events,
      trace (snd (o, mkWorld config tr)) = (tr ++ events)%list /\
      match baseBuildDir config with
      | Some base =>
          let out := path_join [base; "output"; "awsToolkitSamLocalResource"] in
          compile_trace (path_join [out; "tsconfig.json"]) ("tsc --project " ++ out) events
      | None => events = []
      end /\
      (events <> [] ->
       target (invokeTarget config) = "code" /\
       (fst (o, mkWorld config tr) = Return tt \/
        fst (o, mkWorld config tr) = Throw compile_failure))).
  { intros o. split; [reflexivity|]. exists []. split; [now rewrite app_nil_r|].
    split; [|intros Hne; now elim Hne].
    destruct (baseBuildDir config); [constructor | reflexivity]. }
  destruct (compile_ends_early config tr fuel) as (Hother & Hmissing & Hearly).
  destruct (String.eqb_spec (target (invokeTarget config)) "code") as [Htarget|Htarget].
  2:{ rewrite (Hother Htarget). apply Hnone. }
  destruct (baseBuildDir config) as [base|] eqn:Hbase.
  2:{ destruct (Hmissing Htarget (or_introl eq_refl)) as (e & _ & ->). apply Hnone. }
  destruct (codeRoot config) as [root|] eqn:Hroot.
  2:{ destruct (Hmissing Htarget (or_intror eq_refl)) as (e & _ & ->). apply Hnone. }
  destruct (Hearly base root Htarget eq_refl eq_refl) as [Hlist Hwalk].
  destruct (readdir root) as [files|e] eqn:Hls.
  2:{ rewrite (Hlist e eq_refl). apply Hnone. }
  assert (Hstep :
    includes files "tsconfig.json" = true \/
    hasTypeScriptFilesRecursive fuel root = Return true ->
    object (snd (compileTypeScript fuel (mkWorld config tr))) = config /\
    exists events,
      trace (snd (compileTypeScript fuel (mkWorld config tr))) = (tr ++ events)%list /\
      (let out := path_join [base; "output"; "awsToolkitSamLocalResource"] in
       compile_trace (path_join [out; "tsconfig.json"]) ("tsc --project " ++ out) events) /\
      (events <> [] ->
       target (invokeTarget config) = "code" /\
       (fst (compileTypeScript fuel (mkWorld config tr)) = Return tt \/
        fst (compileTypeScript fuel (mkWorld config tr)) = Throw compile_failure))).
  { intros Hfound.
    rewrite (compile_step_outcome config tr base root files fuel Htarget Hbase Hroot Hls Hfound).
    cbv zeta.
    destruct (writeFileSync _ _) as [[]|e] eqn:Hwrite.
    - destruct (ChildProcess_run _) as [[]|e] eqn:Hrun.
      + split; [reflexivity|]. eexists. split; [reflexivity|].
        split; [now apply compile_done | auto].
      + split; [reflexivity|]. eexists. split; [reflexivity|].
        split; [now apply compile_not_run | auto].
    - split; [reflexivity|]. eexists. split; [reflexivity|].
      split; [now apply compile_not_written | auto]. }
  destruct (includes files "tsconfig.json") eqn:Hinc; [apply Hstep; now left|].
  destruct (hasTypeScriptFilesRecursive fuel root) as [[|]|e|] eqn:Hts.
  - apply Hstep. now right.
  - rewrite (Hwalk files _ eq_refl Hinc eq_refl) by discriminate. apply Hnone.
  - rewrite (Hwalk files _ eq_refl Hinc eq_refl) by discriminate. apply Hnone.
  - rewrite (Hwalk files _ eq_refl Hinc eq_refl) by discriminate. apply Hnone.
Qed.

End CompileStepEffects.

(** ** [hasTypeScriptFilesRecursive]: exceptions and the order of a listing *)

Section WalkOutcome.

Context `{Host}.

Lemma scan_files_more_steps (rec1 rec2 : string -> outcome bool) (dir : string)
    (files : list string) (o : outcome bool) :
  (forall p o', rec1 p = o' -> o' <> OutOfFuel -> rec2 p = o') ->
  scan_files rec1 dir files = o -> o <> OutOfFuel ->
  scan_files rec2 dir files = o.
Proof.
  intros Hrec. induction files as [|file rest IH]; cbn [scan_files]; [auto|].
  destruct (String.eqb (substr file (-3)) ".ts"); [auto|].
  destruct (statSync_isDirectory (path_join [dir; file])) as [[|]|e]; [|auto|auto].
  destruct (rec1 (path_join [dir; file])) as [[|]|e|] eqn:Hsub.
  - intros <- _. now rewrite (Hrec _ _ Hsub) by discriminate.
  - intros Hrest Hne. rewrite (Hrec _ _ Hsub) by discriminate. now apply IH.
  - intros <- _. now rewrite (Hrec _ _ Hsub) by discriminate.
  - intros <- Hne. now elim Hne.
Qed.

(** More steps do not change an outcome that was reached. *)
Lemma walk_more_steps (n m : nat) (dir : string) (o : outcome bool) :
  hasTypeScriptFilesRecursive n dir = o -> o <> OutOfFuel -> n <= m ->
  hasTypeScriptFilesRecursive m dir = o.
Proof.
  revert m dir o. induction n as [|n IH]; intros m dir o; cbn [hasTypeScriptFilesRecursive].
  - intros <- Hne. now elim Hne.
  - intros Hrun Hne Hle. destruct m as [|m]; [lia|]. cbn [hasTypeScriptFilesRecursive].
    destruct (readdirSync dir) as [files|e]; [|exact Hrun].
    apply (scan_files_more_steps (hasTypeScriptFilesRecursive n)); [|exact Hrun|exact Hne].
    intros p o' Hp Ho'. apply (IH m p o' Hp Ho'). lia.
Qed.

(** X11: on a directory that can be walked, [hasTypeScriptFilesRecursive]
    never throws: whatever the step bound, it gives one and the same answer
    (or, in the model, runs out of steps). *)
Theorem hasTypeScriptFilesRecursive_never_throws (dir : string) :
  walkable dir ->
  exists b, forall fuel,
    hasTypeScriptFilesRecursive fuel dir = Return b \/
    hasTypeScriptFilesRecursive fuel dir = OutOfFuel.
Proof.
  intros Hwalk. destruct (walk_returns dir Hwalk) as (n & b & Hrun).
  exists b. intros fuel.
  destruct (hasTypeScriptFilesRecursive fuel dir) as [b'|e|] eqn:Hfuel; [left|exfalso|now right].
  - pose proof (walk_more_steps fuel (Nat.max fuel n) dir _ Hfuel) as Hmore.
    rewrite (Hrun (Nat.max fuel n)) in Hmore by lia.
    symmetry. apply Hmore; [discriminate | lia].
  - pose proof (walk_more_steps fuel (Nat.max fuel n) dir _ Hfuel) as Hmore.
    rewrite (Hrun (Nat.max fuel n)) in Hmore by lia.
    discriminate Hmore; [discriminate | lia].
Qed.

End WalkOutcome.

Section ListingOrder.

(** Two file systems that differ in the order of their listings only. *)
Variables H1 H2 : Host.
Hypothesis same_join : forall parts, @path_join H1 parts = @path_join H2 parts.
Hypothesis same_stat : forall p, @statSync_isDirectory H1 p = @statSync_isDirectory H2 p.
Hypothesis same_entries :
  forall p files, @readdirSync H1 p = Ok files ->
    exists files', @readdirSync H2 p = Ok files' /\ Permutation files files'.

Lemma walkable_reordered (dir : string) : @walkable H1 dir -> @walkable H2 dir.
Proof.
  induction 1 as [dir files Hls Hstat _ IH].
  destruct (same_entries dir files Hls) as (files' & Hls' & Hperm).
  apply (@walkable_dir H2 dir files' Hls').
  - intros file Hin. rewrite <- same_join, <- same_stat. apply Hstat.
    apply (Permutation_in _ (Permutation_sym Hperm) Hin).
  - intros file Hin Hdir. rewrite <- same_join. apply IH.
    + apply (Permutation_in _ (Permutation_sym Hperm) Hin).
    + now rewrite same_stat, same_join.
Qed.

Lemma ts_entry_reordered (dir : string) : @ts_entry_below H1 dir -> @ts_entry_below H2 dir.
Proof.
  induction 1 as [dir files file Hls Hin Hts | dir files file Hls Hin Hdir _ IH];
    destruct (same_entries dir files Hls) as (files' & Hls' & Hperm).
  - apply (@ts_entry_here H2 dir files' file Hls'); [|exact Hts].
    apply (Permutation_in _ Hperm Hin).
  - apply (@ts_entry_deeper H2 dir files' file Hls').
    + apply (Permutation_in _ Hperm Hin).
    + now rewrite <- same_join, <- same_stat.
    + now rewrite <- same_join.
Qed.

Lemma ts_entry_reordered_back (dir : string) :
  @walkable H1 dir -> @ts_entry_below H2 dir -> @ts_entry_below H1 dir.
Proof.
  induction 1 as [dir files Hls Hstat _ IH].
  destruct (same_entries dir files Hls) as (files' & Hls' & Hperm).
  intros Hbelow.
  inversion Hbelow as [d fs f Hd Hin Hts | d fs f Hd Hin Hdir Hdeep]; subst;
    rewrite Hls' in Hd; injection Hd as <-;
    pose proof (Permutation_in _ (Permutation_sym Hperm) Hin) as Hin1.
  - now apply (@ts_entry_here H1 dir files f).
  - rewrite <- same_join, <- same_stat in Hdir. rewrite <- same_join in Hdeep.
    apply (@ts_entry_deeper H1 dir files f); auto.
Qed.

(** X12: the answer of [hasTypeScriptFilesRecursive] does not depend on the
    order in which [readdirSync] lists the entries of a directory: on a
    directory that can be walked, two file systems that differ in that order
    only give the same answer. *)
Theorem hasTypeScriptFilesRecursive_listing_order (dir : string) :
  @walkable H1 dir ->
  exists n b, forall fuel, n <= fuel ->
    @hasTypeScriptFilesRecursive H1 fuel dir = Return b /\
    @hasTypeScriptFilesRecursive H2 fuel dir = Return b.
Proof.
  intros Hwalk.
  destruct (@walk_settles H1 dir Hwalk) as (n1 & b1 & Hrun1 & Hb1).
  destruct (@walk_settles H2 dir (walkable_reordered dir Hwalk)) as (n2 & b2 & Hrun2 & Hb2).
  assert (b1 = b2) as <-.
  { destruct b1, b2; try reflexivity.
    - assert (true = true) as E by reflexivity. apply Hb1 in E.
      apply ts_entry_reordered, Hb2 in E. discriminate.
    - assert (true = true) as E by reflexivity. apply Hb2 in E.
      apply (ts_entry_reordered_back dir Hwalk), Hb1 in E. discriminate. }
  exists (Nat.max n1 n2), b1. intros fuel Hfuel. split; [apply Hrun1 | apply Hrun2]; lia.
Qed.

End ListingOrder.

(** ** The integration tests: code lenses *)

Section CodeLenses.

Import SamIntegrationTest.

Lemma is_add_config_lens_spec (codeLens : CodeLens) :
  is_add_config_lens codeLens = true <->
  exists args,
    lens_command codeLens = Some (mkCommand "aws.pickAddSamDebugConfiguration" (Some args)) /\
    List.length args = 3.
Proof.
  unfold is_add_config_lens.
  destruct codeLens as [[[id [args|]]|]]; cbn.
  - destruct (Nat.eqb_spec (List.length args) 3) as [Hlen|Hlen].
    + rewrite String.eqb_eq. split.
      * intros ->. now exists args.
      * intros (args' & [= -> ->] & _). reflexivity.
    + split; [discriminate | intros (args' & [= _ ->] & Hlen'); contradiction].
  - split; [discriminate | intros (args' & [=] & _)].
  - split; [discriminate | intros (args' & [=] & _)].
Qed.

Lemma attempt_found (lenses : result (option (list CodeLens))) (found : list CodeLens) :
  fst (getAddConfigCodeLens_attempt lenses) = Some found ->
  found <> [] /\
  exists codeLenses,
    lenses = Ok (Some codeLenses) /\ found = filter is_add_config_lens codeLenses.
Proof.
  unfold getAddConfigCodeLens_attempt.
  destruct lenses as [[codeLenses|]|e]; cbn [fst]; try discriminate.
  destruct (Nat.eqb (List.length codeLenses) 0); cbn [fst]; [discriminate|].
  destruct (filter is_add_config_lens codeLenses) as [|l rest] eqn:Hf;
    cbn [List.length Nat.ltb Nat.leb fst]; [discriminate|].
  intros [= <-]. split; [discriminate|]. exists codeLenses. now rewrite Hf.
Qed.

(** X13: an attempt of [getAddConfigCodeLens] never gives an empty array: it
    gives [undefined] when [getCodeLenses] fails or gives nothing, and when no
    code lens is left by the filter; otherwise it gives, in their order,
    exactly the code lenses whose command is
    [aws.pickAddSamDebugConfiguration] with three arguments. Only a failure
    of [getCodeLenses] is written to the console. *)
Theorem getAddConfigCodeLens_attempt_result (lenses : result (option (list CodeLens))) :
  let attempt := getAddConfigCodeLens_attempt lenses in
  (forall found,
     fst attempt = Some found ->
     found <> [] /\
     exists codeLenses,
       lenses = Ok (Some codeLenses) /\ found = filter is_add_config_lens codeLenses) /\
  (fst attempt = None <->
   match lenses with
   | Ok (Some codeLenses) => forall l, In l codeLenses -> is_add_config_lens l = false
   | _ => True
   end) /\
  (snd attempt <> [] <-> exists e, lenses = Failed e).
Proof.
  intros attempt. subst attempt. unfold getAddConfigCodeLens_attempt.
  destruct lenses as [[codeLenses|]|e]; cbn [fst snd].
  - assert (Hfilter : filter is_add_config_lens codeLenses = [] <->
                      forall l, In l codeLenses -> is_add_config_lens l = false).
    { split.
      - intros Hnil l Hin. destruct (is_add_config_lens l) eqn:Hl; [|reflexivity].
        assert (In l (filter is_add_config_lens codeLenses)) by (apply filter_In; auto).
        rewrite Hnil in *. contradiction.
      - intros Hnone. destruct (filter is_add_config_lens codeLenses) as [|l rest] eqn:Hf;
          [reflexivity|].
        assert (Hin : In l (filter is_add_config_lens codeLenses)) by (rewrite Hf; now left).
        apply filter_In in Hin. destruct Hin as [Hin Hl]. rewrite (Hnone l Hin) in Hl.
        discriminate. }
    destruct codeLenses as [|l0 rest0]; cbn [List.length Nat.eqb fst snd].
    + split; [intros found [=]|]. split; [|split; [intros Hne; now elim Hne | intros [e [=]]]].
      split; [intros _ l [] | reflexivity].
    + destruct (filter is_add_config_lens (l0 :: rest0)) as [|l rest] eqn:Hf;
        cbn [List.length Nat.ltb Nat.leb fst snd].
      * split; [intros found [=]|].
        split; [|split; [intros Hne; now elim Hne | intros [e [=]]]].
        split; [intros _; now apply Hfilter | reflexivity].
      * split.
        -- intros found [= <-]. split; [discriminate|]. exists (l0 :: rest0). now rewrite Hf.
        -- split; [|split; [intros Hne; now elim Hne | intros [e [=]]]].
           split; [discriminate|]. intros Hnone. apply Hfilter in Hnone. discriminate.
  - split; [intros found [=]|]. split; [tauto|].
    split; [intros Hne; now elim Hne | intros [e [=]]].
  - split; [intros found [=]|]. split; [tauto|].
    split; [intros _; now exists e | discriminate].
Qed.

Variable path_dirname : string -> string.
Variable strictEqual_message : string -> string -> string.

Local Abbreviation assertSameRoot :=
  (assertCodeLensReferencesHasSameRoot path_dirname strictEqual_message).

(** X14: every code lens an attempt of [getAddConfigCodeLens] gives passes
    the first three assertions of [assertCodeLensReferencesHasSameRoot] (a
    command, arguments, three of them); the check then succeeds exactly when
    the first argument is an object whose [rootUri] lies in the same
    directory as the expected file; it can only fail on a first argument that
    is not defined, on one without a [rootUri], or on directories that
    differ. *)
Theorem found_lenses_have_commands (lenses : result (option (list CodeLens)))
    (found : list CodeLens) (codeLens : CodeLens) (expectedUri : Uri) :
  fst (getAddConfigCodeLens_attempt lenses) = Some found ->
  In codeLens found ->
  (assertSameRoot codeLens expectedUri = Ok tt <->
   exists rootUri rest,
     option_map arguments (lens_command codeLens)
       = Some (Some (ObjectArgument (Some rootUri) :: rest)) /\
     path_dirname (fsPath rootUri) = path_dirname (fsPath expectedUri)) /\
  (forall e,
     assertSameRoot codeLens expectedUri = Failed e ->
     e = AssertionError "unexpected non-defined command argument" \/
     error_name e = "TypeError" \/
     exists actual expected,
       actual <> expected /\ e = AssertionError (strictEqual_message actual expected)).
Proof.
  intros Hfound Hin.
  assert (Hlens : is_add_config_lens codeLens = true).
  { destruct (attempt_found lenses found Hfound) as (_ & codeLenses & _ & ->).
    apply filter_In in Hin. tauto. }
  apply is_add_config_lens_spec in Hlens. destruct Hlens as (args & Hcmd & Hlen).
  unfold assertCodeLensReferencesHasSameRoot. rewrite Hcmd. cbn [arguments option_map].
  rewrite Hlen. cbn [Nat.eqb negb].
  destruct args as [|params rest]; [discriminate Hlen|].
  destruct params as [[rootUri|]|v]; cbn [Argument_truthy negb].
  - destruct (String.eqb_spec (path_dirname (fsPath rootUri)) (path_dirname (fsPath expectedUri)))
      as [E|E].
    + split; [|intros e [=]]. split; [intros _; now exists rootUri, rest | reflexivity].
    + split.
      * split; [discriminate|]. intros (u & r & [= <- <-] & E'). contradiction.
      * intros e [= <-]. right. right. eauto.
  - split.
    + split; [discriminate | intros (u & r & [=] & _)].
    + intros e [= <-]. right. now left.
  - destruct (ToBoolean v); cbn [negb].
    + split.
      * split; [discriminate | intros (u & r & [=] & _)].
      * intros e [= <-]. right. now left.
    + split.
      * split; [discriminate | intros (u & r & [=] & _)].
      * intros e [= <-]. now left.
Qed.

End CodeLenses.

(** ** The integration tests: scenarios, [sam init] and the debug configuration *)

Lemma Number_toString_injective (a b : Z) :
  Number_toString a = Number_toString b -> a = b.
Proof.
  unfold Number_toString. intros E.
  assert (Hnonnil : forall z, Z.to_int z <> Decimal.Pos Decimal.Nil /\
                              Z.to_int z <> Decimal.Neg Decimal.Nil).
  { intros [|p|p]; cbn; split; try discriminate;
      intros [= Hp]; now apply (DecimalPos.Unsigned.to_uint_nonnil p). }
  apply (f_equal NilZero.int_of_string) in E.
  rewrite !NilZero.isi in E by apply Hnonnil.
  injection E as E. apply (f_equal Z.of_int) in E.
  now rewrite !DecimalZ.of_to in E.
Qed.

Section Scenarios.

Import SamIntegrationTest.

Variable JSON_stringify : DebugSession -> string.
Variable JSON_stringify_2 : DebugSession -> string.
Variable activeDebugSession : nat -> string -> option DebugSession.

Local Abbreviation testTarget := (testTarget JSON_stringify_2 activeDebugSession).
Local Abbreviation validateSamDebugSession := (validateSamDebugSession JSON_stringify).

(** X15: the [switch] of the code lens test ends in [assert.fail] exactly
    for a language other than javascript, python, csharp and java, and for
    java with a dependency manager other than maven and gradle; for every
    scenario of the table it selects a manifest: [package.json] for
    javascript, [requirements.txt] for python, and for java [pom.xml] under
    maven and [build.gradle] under gradle. *)
Theorem manifestFile_selection :
  (forall scenario,
     (exists e, manifestFile scenario = Failed e) <->
     ~ (language scenario = "javascript" \/ language scenario = "python" \/
        language scenario = "csharp" \/
        (language scenario = "java" /\
         (dependencyManager scenario = "maven" \/ dependencyManager scenario = "gradle")))) /\
  Forall
    (fun scenario =>
       manifestFile scenario =
       Ok (mkRegExp
             (if String.eqb (language scenario) "javascript" then "^package\.json$"
              else if String.eqb (language scenario) "python" then "^requirements\.txt$"
              else if String.eqb (dependencyManager scenario) "maven" then "^.*pom\.xml$"
              else "^.*build\.gradle$")))
    scenarios.
Proof.
  split.
  - intros scenario. unfold manifestFile.
    destruct (String.eqb_spec (language scenario) "javascript") as [L1|L1].
    { split; [intros [e [=]] | intros Hno; elim Hno; auto]. }
    destruct (String.eqb_spec (language scenario) "python") as [L2|L2].
    { split; [intros [e [=]] | intros Hno; elim Hno; auto]. }
    destruct (String.eqb_spec (language scenario) "csharp") as [L3|L3].
    { split; [intros [e [=]] | intros Hno; elim Hno; auto]. }
    destruct (String.eqb_spec (language scenario) "java") as [L4|L4].
    + destruct (String.eqb_spec (dependencyManager scenario) "maven") as [D1|D1].
      { split; [intros [e [=]] | intros Hno; elim Hno; auto 6]. }
      destruct (String.eqb_spec (dependencyManager scenario) "gradle") as [D2|D2].
      { split; [intros [e [=]] | intros Hno; elim Hno; auto 6]. }
      split; [intros _ | eauto].
      intros [E | [E | [E | [_ [E | E]]]]]; contradiction.
    + split; [intros _ | eauto].
      intros [E | [E | [E | [E _]]]]; contradiction.
  - unfold scenarios. repeat (apply Forall_cons; [reflexivity|]). apply Forall_nil.
Qed.

(** X16: a scenario's runtime goes either to [sam init] or into the debug
    configuration, never to both and never to neither: with a base image
    that is not empty, [createSamApplication] passes the image and neither
    runtime nor template, and [testTarget] sets [lambda.runtime]; otherwise
    [createSamApplication] passes the runtime with the hello-world template,
    and the debug configuration has no [lambda]. *)
Theorem runtime_given_once (scenarioIndex : nat) (scenario : TestScenario)
    (target location : string) (log : list string) (testConfig : TestConfig) :
  testTarget scenarioIndex scenario target = StartDebugger log testConfig ->
  let args := createSamApplication scenario location in
  (init_dependencyManager args = dependencyManager scenario /\
   init_name args = "testProject" /\ init_location args = location) /\
  if truthy (baseImage scenario)
  then init_baseImage args = baseImage scenario /\ init_runtime args = None /\
       init_template args = None /\
       config_lambda_runtime testConfig = Some (runtime scenario)
  else init_baseImage args = None /\ init_runtime args = Some (runtime scenario) /\
       init_template args = Some helloWorldTemplate /\
       config_lambda_runtime testConfig = None.
Proof.
  intros Hrun. cbv zeta.
  unfold SamIntegrationTest.testTarget in Hrun. unfold createSamApplication.
  assert (Hcfg : config_lambda_runtime testConfig =
                 if truthy (baseImage scenario) then Some (runtime scenario) else None).
  { destruct (activeDebugSession scenarioIndex target) as [session|].
    - destruct (String.eqb (session_type session) "pwa-node"); [|discriminate].
      now injection Hrun as _ <-.
    - now injection Hrun as _ <-. }
  rewrite Hcfg. destruct (truthy (baseImage scenario)); cbn; auto 8.
Qed.

Lemma testTarget_config (scenarioIndex : nat) (scenario : TestScenario)
    (target : string) (log : list string) (testConfig : TestConfig) :
  testTarget scenarioIndex scenario target = StartDebugger log testConfig ->
  config_name testConfig = "test-config-" ++ Number_toString (Z.of_nat scenarioIndex) /\
  config_target testConfig = target.
Proof.
  unfold SamIntegrationTest.testTarget. intros Hrun.
  destruct (activeDebugSession scenarioIndex target) as [session|].
  - destruct (String.eqb (session_type session) "pwa-node"); [|discriminate].
    now injection Hrun as _ <-.
  - now injection Hrun as _ <-.
Qed.

(** X17: the debug configurations of two scenarios at different indices have
    different names, so that a session started from the one is never taken
    for a session of the other: [validateSamDebugSession] gives a failure
    message for it. *)
Theorem test_configs_tell_scenarios_apart (i j : nat) (scenario_i scenario_j : TestScenario)
    (target_i target_j : string) (log_i log_j : list string) (config_i config_j : TestConfig)
    (session : DebugSession) :
  testTarget i scenario_i target_i = StartDebugger log_i config_i ->
  testTarget j scenario_j target_j = StartDebugger log_j config_j ->
  i <> j ->
  config_name config_i <> config_name config_j /\
  (configuration_name (configuration session) = VString (config_name config_i) ->
   validateSamDebugSession session (config_name config_j) (runtime scenario_j) <> None).
Proof.
  intros Hi Hj Hne.
  destruct (testTarget_config _ _ _ _ _ Hi) as [Ni _].
  destruct (testTarget_config _ _ _ _ _ Hj) as [Nj _].
  assert (Hnames : config_name config_i <> config_name config_j).
  { rewrite Ni, Nj. intros E. cbn in E. injection E as E.
    apply Number_toString_injective in E. lia. }
  split; [exact Hnames|].
  intros Hsession. unfold SamIntegrationTest.validateSamDebugSession.
  rewrite Hsession. cbn [strict_equal].
  destruct (String.eqb_spec (config_name config_i) (config_name config_j)); [contradiction|].
  discriminate.
Qed.

End Scenarios.

(** ** The integration tests: the termination handler of [startDebugger] *)

Section Terminations.

Import SamIntegrationTest.

Variable JSON_stringify : DebugSession -> string.

Variables (scenarioIndex : nat) (scenario : TestScenario) (target : string)
          (testConfig : TestConfig).

Local Abbreviation handler :=
  (onDidTerminateDebugSession JSON_stringify scenarioIndex scenario target testConfig).
Local Abbreviation terminations :=
  (terminations JSON_stringify scenarioIndex scenario target testConfig).
Local Abbreviation validate session :=
  (validateSamDebugSession JSON_stringify session (config_name testConfig) (runtime scenario)).

Lemma failure_message_truthy (session : DebugSession) (failMsg : string) :
  validate session = Some failMsg -> truthy (Some failMsg) = true.
Proof.
  unfold validateSamDebugSession.
  destruct (_ || _); [|discriminate]. now intros [= <-].
Qed.

Lemma stopDebugger_fields (logMsg : option string) (st : DebugRun) :
  success (stopDebugger logMsg st) = success st /\
  sessionLog (stopDebugger logMsg st) = sessionLog st /\
  executed (stopDebugger logMsg st) = (executed st ++ ["workbench.action.debug.stop"])%list /\
  console (stopDebugger logMsg st) =
    (console st ++
       if truthy logMsg
       then [("sam.test.ts: stopDebugger(): "
                ++ match logMsg with Some m => m | None => "" end)%string]
       else [])%list.
Proof.
  unfold stopDebugger, executeCommand.
  destruct (truthy logMsg); cbn; rewrite ?app_nil_r; auto.
Qed.

Lemma resolve_fields (st : DebugRun) :
  success (resolve st) = match success st with Pending => Fulfilled | settled => settled end /\
  sessionLog (resolve st) = sessionLog st /\
  executed (resolve st) = executed st /\ console (resolve st) = console st.
Proof. unfold resolve. destruct (success st) eqn:E; cbn; rewrite ?E; auto. Qed.

Lemma reject_fields (reason : Error) (st : DebugRun) :
  success (reject reason st)
    = match success st with Pending => Rejected reason | settled => settled end /\
  sessionLog (reject reason st) = sessionLog st /\
  executed (reject reason st) = executed st /\ console (reject reason st) = console st.
Proof. unfold reject. destruct (success st) eqn:E; cbn; rewrite ?E; auto. Qed.

(** One event: what the handler does to the promise. *)
Lemma handler_success (session : DebugSession) (st : DebugRun) :
  success (handler session st) =
  match success st with
  | Pending =>
      if has_runtime session
      then match validate session with
           | None => Fulfilled
           | Some failMsg => Rejected (mkError "Error" failMsg)
           end
      else Pending
  | settled => settled
  end.
Proof.
  unfold onDidTerminateDebugSession, has_runtime.
  destruct (ToBoolean (configuration_runtime (configuration session))); cbn [negb].
  - rewrite (proj1 (stopDebugger_fields _ _)), (proj1 (resolve_fields _)).
    destruct (validateSamDebugSession _ _ _ _) as [failMsg|] eqn:Hv.
    + rewrite (failure_message_truthy session failMsg Hv).
      rewrite (proj1 (reject_fields _ _)). cbn [logSession success].
      destruct (success st); reflexivity.
    + cbn [truthy logSession success]. destruct (success st); reflexivity.
  - cbn [logSession success]. destruct (success st); reflexivity.
Qed.

(** X18: the promise [success] is settled by the first session that
    terminates with a runtime in its configuration: fulfilled if that session
    has the name and runtime of the test, rejected with the validation
    message otherwise; sessions without a runtime (coprocesses) never settle
    it, and once settled it stays as it is whatever terminates later. *)
Theorem first_session_with_runtime_decides (sessions : list DebugSession) (st : DebugRun) :
  success (terminations sessions st) =
  match success st with
  | Pending =>
      match find has_runtime sessions with
      | None => Pending
      | Some session =>
          match validate session with
          | None => Fulfilled
          | Some failMsg => Rejected (mkError "Error" failMsg)
          end
      end
  | settled => settled
  end.
Proof.
  unfold SamIntegrationTest.terminations.
  revert st. induction sessions as [|session rest IH]; intros st; cbn [fold_left find].
  - destruct (success st); reflexivity.
  - rewrite IH, handler_success.
    destruct (success st); try reflexivity.
    destruct (has_runtime session); [|reflexivity].
    destruct (validateSamDebugSession _ _ _ _); reflexivity.
Qed.

Lemma handler_bookkeeping (session : DebugSession) (st : DebugRun) :
  List.length (sessionLog (handler session st)) = S (List.length (sessionLog st)) /\
  executed (handler session st) =
    (executed st ++
       if has_runtime session then ["workbench.action.debug.stop"] else [])%list /\
  console (handler session st) =
    (console st ++
       if has_runtime session
       then [("sam.test.ts: stopDebugger(): " ++ runtime scenario
                ++ " / onDidTerminateDebugSession")%string]
       else [])%list.
Proof.
  unfold onDidTerminateDebugSession, has_runtime.
  assert (Hmsg : truthy (Some (runtime scenario ++ " / onDidTerminateDebugSession")) = true).
  { cbn. destruct (runtime scenario); reflexivity. }
  destruct (ToBoolean (configuration_runtime (configuration session))); cbn [negb].
  - destruct (stopDebugger_fields
                (Some (runtime scenario ++ " / onDidTerminateDebugSession"))
                (resolve
                   (if truthy (validate session)
                    then reject (mkError "Error"
                                   match validate session with Some m => m | None => "" end)
                           (logSession scenarioIndex scenario target "END"
                              (session_name session) st)
                    else logSession scenarioIndex scenario target "END"
                           (session_name session) st)))
      as (_ & Hlog & Hexec & Hcons).
    rewrite Hlog, Hexec, Hcons, Hmsg.
    destruct (resolve_fields
                (if truthy (validate session)
                 then reject (mkError "Error"
                                match validate session with Some m => m | None => "" end)
                        (logSession scenarioIndex scenario target "END"
                           (session_name session) st)
                 else logSession scenarioIndex scenario target "END"
                        (session_name session) st))
      as (_ & Hlog2 & Hexec2 & Hcons2).
    rewrite Hlog2, Hexec2, Hcons2.
    destruct (truthy (validate session)).
    + destruct (reject_fields
                  (mkError "Error" match validate session with Some m => m | None => "" end)
                  (logSession scenarioIndex scenario target "END" (session_name session) st))
        as (_ & Hlog3 & Hexec3 & Hcons3).
      rewrite Hlog3, Hexec3, Hcons3. cbn [logSession sessionLog executed console].
      rewrite length_app. cbn. repeat split; lia || reflexivity.
    + cbn [logSession sessionLog executed console].
      rewrite length_app. cbn. repeat split; lia || reflexivity.
  - cbn [logSession sessionLog executed console].
    rewrite length_app, !app_nil_r. cbn. repeat split; lia || reflexivity.
Qed.

(** X19: every session that terminates is logged, with one line in
    [sessionLog]; the debugger is stopped once, with one console line, for
    each session that has a runtime, and a session without one causes neither
    a command nor a console line. *)
Theorem terminations_bookkeeping (sessions : list DebugSession) (st : DebugRun) :
  let n := List.length (filter has_runtime sessions) in
  List.length (sessionLog (terminations sessions st)) =
    List.length (sessionLog st) + List.length sessions /\
  executed (terminations sessions st) =
    (executed st ++ repeat "workbench.action.debug.stop" n)%list /\
  console (terminations sessions st) =
    (console st ++
       repeat ("sam.test.ts: stopDebugger(): " ++ runtime scenario
                 ++ " / onDidTerminateDebugSession")%string n)%list.
Proof.
  unfold SamIntegrationTest.terminations. cbv zeta.
  revert st. induction sessions as [|session rest IH]; intros st; cbn [fold_left filter].
  - cbn. rewrite !app_nil_r. repeat split; lia.
  - destruct (IH (handler session st)) as (Hlog & Hexec & Hcons).
    destruct (handler_bookkeeping session st) as (Hlog1 & Hexec1 & Hcons1).
    rewrite Hlog, Hexec, Hcons, Hlog1, Hexec1, Hcons1.
    destruct (has_runtime session); cbn [List.length repeat];
      rewrite <- ?app_assoc, ?app_nil_r; cbn [app]; repeat split; lia || reflexivity.
Qed.

End Terminations.

Section SessionLog.

Import SamIntegrationTest.

Lemma padEnd_length (s : string) (n : nat) :
  String.length (padEnd s n) = Nat.max (String.length s) n.
Proof.
  unfold padEnd. rewrite length_append.
  assert (Hspaces : forall k, String.length (spaces k) = k)
    by (induction k; cbn; congruence).
  rewrite Hspaces. lia.
Qed.

(** X20: [logSession] adds one line to [sessionLog] and changes nothing
    else; the lines for [START] and for [END] of the same scenario, target
    and session name have the same length, the marker being padded to five
    characters. *)
Theorem logSession_lines_align (scenarioIndex : nat) (scenario : TestScenario)
    (target name : string) (st : DebugRun) :
  exists started ended,
    logSession scenarioIndex scenario target "START" name st =
      mkDebugRun (success st) (sessionLog st ++ [started]) (console st) (executed st) /\
    logSession scenarioIndex scenario target "END" name st =
      mkDebugRun (success st) (sessionLog st ++ [ended]) (console st) (executed st) /\
    String.length started = String.length ended.
Proof.
  unfold logSession. do 2 eexists. split; [reflexivity|]. split; [reflexivity|].
  rewrite !length_append, !padEnd_length. reflexivity.
Qed.

End SessionLog.

(** ** From the launch configuration to the compile step *)

Section Pipeline.

Context `{Host}.

(** X21: a configuration returned by [makeTypescriptConfig] has the build
    directory of the configuration it was made from and the normalized code
    root, so [compileTypeScript] never fails on it for want of a path; for
    target [code] and a code root that lists [tsconfig.json], it writes the
    default [tsconfig.json] under that build directory and runs [tsc] there. *)
Theorem launch_configuration_compiles (config : SamLaunchRequestArgs) (tr : list Event)
    (result : NodejsDebugConfiguration) (w' : World SamLaunchRequestArgs) :
  makeTypescriptConfig (mkWorld config tr) = (Return result, w') ->
  exists base root,
    baseBuildDir config = Some base /\
    resolves_codeRoot config root /\
    baseBuildDir result = Some base /\
    codeRoot result = Some root /\
    invokeTarget result = invokeTarget config /\
    forall fuel tr' files,
      target (invokeTarget config) = "code" ->
      readdir root = Ok files ->
      In "tsconfig.json" files ->
      let out := path_join [base; "output"; "awsToolkitSamLocalResource"] in
      let tsconfigPath := path_join [out; "tsconfig.json"] in
      writeFileSync tsconfigPath (stringify defaultTsconfig) = Ok tt ->
      ChildProcess_run ("tsc --project " ++ out) = Ok tt ->
      compileTypeScript fuel (mkWorld result tr') =
      (Return tt,
       mkWorld result
         (tr' ++ [WriteFile tsconfigPath (stringify defaultTsconfig); compiling_log;
                  RunProcess ("tsc --project " ++ out)])).
Proof.
  intros Hret.
  destruct (makeTypescriptConfig_returns_only_if _ _ _ _ Hret) as (Hbase & _).
  destruct (truthy_Some _ Hbase) as (base & Hb & _).
  destruct (makeTypescriptConfig_returned _ _ _ _ Hret)
    as (root & tp & Hroot & Htp & Hobj & Hinh & _).
  assert (Hfields : baseBuildDir (object w') = baseBuildDir config /\
                    codeRoot (object w') = Some root /\
                    invokeTarget (object w') = invokeTarget config).
  { rewrite Hobj. cbv zeta.
    destruct (isImageLambdaConfig _ && debugging config); cbn; auto. }
  destruct Hfields as (Fb & Fc & Ft).
  destruct Hinh as (_ & It & _ & Ib & Ic & _).
  exists base, root.
  assert (Rb : baseBuildDir result = Some base) by (rewrite Ib, Fb; exact Hb).
  assert (Rc : codeRoot result = Some root) by (rewrite Ic; exact Fc).
  assert (Rt : invokeTarget result = invokeTarget config) by (rewrite It; exact Ft).
  repeat (split; [assumption|]).
  intros fuel tr' files Htarget Hls Hin out tsconfigPath Hwrite Hrun.
  rewrite (compile_step_outcome result tr' base root files fuel); auto.
  - cbv zeta. fold out. fold tsconfigPath. now rewrite Hwrite, Hrun.
  - now rewrite Rt.
  - left. now apply includes_In.
Qed.

End Pipeline.

Lemma launch_configuration_compiles_witness :
  exists result w',
    @makeTypescriptConfig (okHost tsconfigProject) (mkWorld sampleArgs []) = (Return result, w') /\
    @compileTypeScript (okHost tsconfigProject) 0 (mkWorld result []) =
    (Return tt,
     mkWorld result
       [WriteFile "/tmp/build/output/awsToolkitSamLocalResource/tsconfig.json"
          (stringify defaultTsconfig);
        compiling_log;
        RunProcess "tsc --project /tmp/build/output/awsToolkitSamLocalResource"]).
Proof.
  eexists. eexists. split; [lazy; reflexivity|].
  destruct (@launch_configuration_compiles (okHost tsconfigProject) sampleArgs [] _ _ eq_refl)
    as (base & root & Hb & _ & _ & Hc & _ & Hcompile).
  injection Hb as <-. injection Hc as <-.
  apply (Hcompile 0 [] ["package.json"; "tsconfig.json"; "app.ts"]);
    [reflexivity | reflexivity | cbn; auto | reflexivity | reflexivity].
Defined.

(** ** Instances of the further properties *)

Lemma makeTypescriptConfig_discovery_fails_witness :
  @makeTypescriptConfig (okHost jsProject) (mkWorld discoverArgs []) =
  (Throw (mkError "Error" "Cannot find package.json for: /ws/app/src/handler.ts"),
   mkWorld discoverArgs []).
Proof.
  exact (proj1 (@makeTypescriptConfig_discovery_fails (okHost jsProject) discoverArgs []
                  eq_refl eq_refl)
               "/ws/app/src/handler.ts" eq_refl eq_refl).
Defined.

Lemma makeTypescriptConfig_template_fails_witness :
  @makeTypescriptConfig noTemplateHost (mkWorld sampleArgs []) =
  (Throw (mkError "Error" "EACCES: permission denied, open template.yaml"),
   mkWorld (set_codeRoot "/ws/app" sampleArgs) []).
Proof.
  apply (@makeTypescriptConfig_template_fails noTemplateHost sampleArgs [] "/ws/app").
  - reflexivity.
  - left. split; [reflexivity|]. now exists "/ws/app".
  - reflexivity.
Defined.

Lemma makeTypescriptConfig_empty_root_witness :
  @makeTypescriptConfig blankNormalizeHost (mkWorld discoverArgs []) =
  (Throw (mkError "Error"
            "missing launch.json, template.yaml, and failed to discover project root"),
   mkWorld (set_codeRoot EmptyString discoverArgs) []).
Proof.
  exact (@makeTypescriptConfig_empty_root blankNormalizeHost discoverArgs []
           "/ws/app/src/handler.ts" "/ws/app" eq_refl eq_refl eq_refl eq_refl eq_refl).
Defined.

Lemma makeTypescriptConfig_updates_config_witness :
  exists result w',
    @makeTypescriptConfig imageHost (mkWorld imageArgs []) = (Return result, w') /\
    untouched imageArgs (object w') /\
    (exists root, @resolves_codeRoot imageHost imageArgs root /\
                  codeRoot (object w') = Some root) /\
    (exists tp, templatePath (object w') = Some tp /\ In (MakeInputTemplate tp) (trace w')) /\
    inherits result (object w').
Proof.
  eexists. eexists. split; [lazy; reflexivity|].
  exact (@makeTypescriptConfig_updates_config imageHost imageArgs [] _ _ eq_refl).
Defined.

Lemma makeTypescriptConfig_container_options_witness :
  (safe_debugPort imagePortArgs /\
   exists result w',
     @makeTypescriptConfig imageHost (mkWorld imagePortArgs []) = (Return result, w') /\
     containerEnvVars (object w') =
       Some [("NODE_OPTIONS", "--inspect-brk=0.0.0.0:9229 --max-http-header-size 81920")] /\
     containerEnvVars result = containerEnvVars (object w')) /\
  (safe_debugPort imageArgs /\
   exists result w',
     @makeTypescriptConfig imageHost (mkWorld imageArgs []) = (Return result, w') /\
     containerEnvVars (object w') =
       Some [("NODE_OPTIONS", "--inspect-brk=0.0.0.0:undefined --max-http-header-size 81920")] /\
     containerEnvVars result = containerEnvVars (object w') /\
     port result = (-1)%Z).
Proof.
  assert (Hsafe : safe_debugPort imagePortArgs) by (unfold safe_debugPort, safe_integer; cbn; lia).
  split.
  - split; [exact Hsafe|].
    eexists. eexists. split; [lazy; reflexivity|].
    destruct (@makeTypescriptConfig_container_options imageHost imagePortArgs [] _ _
                eq_refl Hsafe) as (_ & Hsame & _).
    split; [reflexivity | exact Hsame].
  - split; [exact I|].
    eexists. eexists. split; [lazy; reflexivity|].
    destruct (@makeTypescriptConfig_container_options imageHost imageArgs [] _ _ eq_refl I)
      as (_ & Hsame & Hport).
    split; [reflexivity|]. split; [exact Hsame|]. exact (proj2 (Hport eq_refl)).
Defined.

Lemma compileTypeScript_listing_fails_witness :
  @compileTypeScript (okHost jsProject) 3
     (mkWorld (sampleNodejs (sampleArgs_with "code" (Some "/nowhere") (Some "/tmp/build"))) []) =
  (Throw (ENOENT "/nowhere"),
   mkWorld (sampleNodejs (sampleArgs_with "code" (Some "/nowhere") (Some "/tmp/build"))) []).
Proof.
  exact (proj1 (@compileTypeScript_listing_fails (okHost jsProject)
                  (sampleNodejs (sampleArgs_with "code" (Some "/nowhere") (Some "/tmp/build")))
                  [] "/tmp/build" "/nowhere" eq_refl eq_refl eq_refl)
               (ENOENT "/nowhere") 3 eq_refl).
Defined.

Lemma compileTypeScript_missing_paths_witness :
  exists e,
    error_name e = "TypeError" /\
    @compileTypeScript (okHost tsProject) 3
       (mkWorld (sampleNodejs (sampleArgs_with "code" (Some "/ws/app") None)) []) =
    (Throw e, mkWorld (sampleNodejs (sampleArgs_with "code" (Some "/ws/app") None)) []).
Proof.
  exact (@compileTypeScript_missing_paths (okHost tsProject)
           (sampleNodejs (sampleArgs_with "code" (Some "/ws/app") None)) [] 3
           eq_refl (or_introl eq_refl)).
Defined.

Lemma hasTypeScriptFilesRecursive_never_throws_witness :
  exists b, forall fuel,
    @hasTypeScriptFilesRecursive (okHost tsProject) fuel "/ws/app" = Return b \/
    @hasTypeScriptFilesRecursive (okHost tsProject) fuel "/ws/app" = OutOfFuel.
Proof.
  exact (@hasTypeScriptFilesRecursive_never_throws (okHost tsProject) "/ws/app"
           tsProject_walkable).
Defined.

Lemma reordered_same_stat (p : string) :
  @statSync_isDirectory (okHost tsProject) p = @statSync_isDirectory (okHost tsProjectReordered) p.
Proof.
  cbn. repeat (destruct (String.eqb p _); [reflexivity|]). reflexivity.
Qed.

Lemma reordered_same_entries (p : string) (files : list string) :
  @readdirSync (okHost tsProject) p = Ok files ->
  exists files', @readdirSync (okHost tsProjectReordered) p = Ok files' /\
                 Permutation files files'.
Proof.
  cbn.
  repeat (destruct (String.eqb p _);
          [first [discriminate
                 | intros [= <-]; eexists; split; [reflexivity|];
                   first [apply Permutation_refl
                         | apply (Permutation_trans (Permutation_cons_append _ _)); cbn;
                           apply perm_swap]]|]).
  discriminate.
Qed.

Lemma hasTypeScriptFilesRecursive_listing_order_witness :
  exists n b, forall fuel, n <= fuel ->
    @hasTypeScriptFilesRecursive (okHost tsProject) fuel "/ws/app" = Return b /\
    @hasTypeScriptFilesRecursive (okHost tsProjectReordered) fuel "/ws/app" = Return b.
Proof.
  exact (hasTypeScriptFilesRecursive_listing_order (okHost tsProject) (okHost tsProjectReordered)
           (fun _ => eq_refl) reordered_same_stat reordered_same_entries
           "/ws/app" tsProject_walkable).
Defined.

Lemma found_lenses_have_commands_witness :
  let lenses :=
    Ok (Some [SamIntegrationTest.undefinedLens;
              SamIntegrationTest.addConfigLens "/ws/app/package.json";
              SamIntegrationTest.otherLens]) in
  fst (SamIntegrationTest.getAddConfigCodeLens_attempt lenses)
    = Some [SamIntegrationTest.addConfigLens "/ws/app/package.json"] /\
  SamIntegrationTest.assertCodeLensReferencesHasSameRoot table_dirname
    (fun actual expected => actual ++ " !== " ++ expected)
    (SamIntegrationTest.addConfigLens "/ws/app/package.json") (mkUri "/ws/app/app.js") = Ok tt.
Proof.
  intros lenses. split; [reflexivity|].
  apply (proj1 (found_lenses_have_commands table_dirname
                  (fun actual expected => actual ++ " !== " ++ expected)
                  lenses [SamIntegrationTest.addConfigLens "/ws/app/package.json"]
                  (SamIntegrationTest.addConfigLens "/ws/app/package.json")
                  (mkUri "/ws/app/app.js") eq_refl (or_introl eq_refl))).
  eexists. eexists. split; reflexivity.
Defined.

Lemma runtime_given_once_witness :
  exists log testConfig,
    SamIntegrationTest.testTarget (fun _ => EmptyString) (fun _ _ => None) 14
      SamIntegrationTest.imageScenario "api" = SamIntegrationTest.StartDebugger log testConfig /\
    SamIntegrationTest.init_baseImage
      (SamIntegrationTest.createSamApplication SamIntegrationTest.imageScenario "/tmp/samapp")
      = Some "amazon/python3.7-base" /\
    SamIntegrationTest.init_runtime
      (SamIntegrationTest.createSamApplication SamIntegrationTest.imageScenario "/tmp/samapp")
      = None /\
    SamIntegrationTest.config_lambda_runtime testConfig = Some "python3.7".
Proof.
  eexists. eexists. split; [reflexivity|].
  destruct (runtime_given_once (fun _ => EmptyString) (fun _ _ => None) 14
              SamIntegrationTest.imageScenario "api" "/tmp/samapp" _ _ eq_refl)
    as (_ & Himage & Hruntime & _ & Hconfig).
  split; [exact Himage|]. split; [exact Hruntime | exact Hconfig].
Defined.

Lemma test_configs_tell_scenarios_apart_witness :
  let session :=
    SamIntegrationTest.mkDebugSession "pwa-node" "test-config-1"
      (SamIntegrationTest.mkDebugConfiguration (VString "test-config-1") (VString "nodejs12.x")) in
  SamIntegrationTest.validateSamDebugSession (fun _ => EmptyString) session
    "test-config-11" "nodejs12.x" <> None.
Proof.
  intros session.
  refine (proj2 (test_configs_tell_scenarios_apart (fun _ => EmptyString) (fun _ => EmptyString)
                   (fun _ _ => None) 1 11
                   SamIntegrationTest.nodeScenario SamIntegrationTest.nodeScenario
                   "api" "api" _ _ _ _ session eq_refl eq_refl _) eq_refl).
  discriminate.
Defined.
